(** * igl::opengl::TextureBuffer — texture lifecycle and upload routing

    A shallow embedding of [src/igl/opengl/TextureBuffer.cpp].

    - Unsigned C++ quantities ([size_t], [uint32_t], [uint64_t], [GLenum],
      [GLuint], usage bitsets) are [N]; signed GL quantities ([GLint],
      [GLsizei]) are [Z], and the C casts to them are written out.
    - The OpenGL context is an explicit state: the log of driver entry points
      issued so far, and the table of texture bindings per target.  Every
      member function takes the context and returns the context it leaves.
    - [IGL_ASSERT*] macros are diagnostics: execution continues after them,
      so they do not appear in the control flow below.  Where a property
      relies on an asserted condition, the theorem carries it as a
      hypothesis.
    - Base-class helpers and header constants that [TextureBuffer.cpp] uses
      but does not define are the fields of the class [Env]. *)

From Stdlib Require Import NArith ZArith List String Lia.
From stdpp Require Import base gmap list.
Import ListNotations.

Local Open Scope N_scope.

(** ** Results *)

Inductive Code :=
  | Ok
  | ArgumentInvalid
  | Unsupported
  | InvalidOperation
  | Unimplemented
  | RuntimeError.

Record Result := mkResult { code : Code; message : string }.

(** [Result{}] *)
Definition Result_default : Result := mkResult Ok EmptyString.

Definition isOk (r : Result) : bool :=
  match code r with Ok => true | _ => false end.

(** ** GL scalar types and the constants the file names *)

Definition GLenum := N.
Definition GLuint := N.
Definition GLint := Z.
Definition GLsizei := Z.

(** [(GLsizei)v] and [(GLint)v] for a [size_t] value: keep the low 32 bits,
    read as two's complement. *)
Definition to_GLint (v : N) : Z :=
  let m := (Z.of_N v mod 2 ^ 32)%Z in
  if (m <? 2 ^ 31)%Z then m else (m - 2 ^ 32)%Z.

Definition GL_ZERO : GLenum := 0.
Definition GL_NONE : GLenum := 0.
Definition GL_RED : GLenum := 0x1903.
Definition GL_NEAREST : GLenum := 0x2600.
Definition GL_TEXTURE_MIN_FILTER : GLenum := 0x2801.
Definition GL_UNPACK_ALIGNMENT : GLenum := 0x0CF5.
Definition GL_TEXTURE_CUBE_MAP : GLenum := 0x8513.
Definition GL_TEXTURE_CUBE_MAP_POSITIVE_X : GLenum := 0x8515.
Definition GL_TEXTURE_CUBE_MAP_NEGATIVE_X : GLenum := 0x8516.
Definition GL_TEXTURE_CUBE_MAP_POSITIVE_Y : GLenum := 0x8517.
Definition GL_TEXTURE_CUBE_MAP_NEGATIVE_Y : GLenum := 0x8518.
Definition GL_TEXTURE_CUBE_MAP_POSITIVE_Z : GLenum := 0x8519.
Definition GL_TEXTURE_CUBE_MAP_NEGATIVE_Z : GLenum := 0x851A.
Definition GL_TEXTURE_SWIZZLE_R : GLenum := 0x8E42.
Definition GL_TEXTURE_SWIZZLE_G : GLenum := 0x8E43.
Definition GL_TEXTURE_SWIZZLE_B : GLenum := 0x8E44.
Definition GL_TEXTURE_SWIZZLE_A : GLenum := 0x8E45.

(** [const void*]: [None] is [nullptr], [Some a] the address of a buffer. *)
Definition voidptr := option N.
Abbreviation nullptr := (@None N).

Definition is_nullptr (p : voidptr) : bool :=
  match p with None => true | Some _ => false end.

(** ** Descriptors *)

Inductive TextureType :=
  | Invalid
  | TwoD
  | TwoDArray
  | ThreeD
  | Cube
  | ExternalImage.

Global Instance TextureType_eq_dec : EqDecision TextureType.
Proof. solve_decision. Defined.

Inductive TextureCubeFace := PosX | NegX | PosY | NegY | PosZ | NegZ.

(** [static_cast<size_t>(face)] *)
Definition face_index (f : TextureCubeFace) : nat :=
  match f with
  | PosX => 0 | NegX => 1 | PosY => 2 | NegY => 3 | PosZ => 4 | NegZ => 5
  end%nat.

(** [TextureFormat] is an enumeration; only its identity matters here. *)
Definition TextureFormat := N.

Record TextureRangeDesc := mkRange {
  x : N; y : N; z : N;
  width : N; height : N; depth : N;
  layer : N; numLayers : N;
  mipLevel : N; numMipLevels : N
}.

Record TextureDesc := mkDesc {
  desc_width : N; desc_height : N; desc_depth : N;
  desc_numLayers : N; desc_numSamples : N;
  desc_usage : N;
  desc_numMipLevels : N;
  desc_type : TextureType;
  desc_format : TextureFormat
}.

Record FormatDescGL := mkFormatDescGL {
  internalFormat : GLenum;
  format : GLenum;
  type : GLenum
}.

(** ** The context: entry points, log and binding table *)

Inductive GLCall :=
  | MakeTextureHandleNonResident (handle : N)
  | MakeTextureHandleResident (handle : N)
  | GetTextureHandle (id : GLuint)
  | DeleteTextures (ids : list GLuint)
  | GenTextures (n : N)
  | BindTexture (target : GLenum) (id : GLuint)
  | TexParameteri (target pname : GLenum) (param : GLenum)
  | PixelStorei (pname : GLenum) (param : GLint)
  | TexStorage2D (target : GLenum) (levels : GLsizei) (ifmt : GLenum) (w h : GLsizei)
  | TexStorage3D (target : GLenum) (levels : GLsizei) (ifmt : GLenum) (w h d : GLsizei)
  | TexImage1D (target : GLenum) (level : GLint) (ifmt : GLenum) (w : GLsizei)
      (border : GLint) (fmt ty : GLenum) (data : voidptr)
  | TexSubImage1D (target : GLenum) (level xoff : GLint) (w : GLsizei)
      (fmt ty : GLenum) (data : voidptr)
  | CompressedTexImage1D (target : GLenum) (level : GLint) (ifmt : GLenum)
      (w : GLsizei) (border : GLint) (size : GLsizei) (data : voidptr)
  | CompressedTexSubImage1D (target : GLenum) (level xoff : GLint) (w : GLsizei)
      (fmt : GLenum) (size : GLsizei) (data : voidptr)
  | TexImage2D (target : GLenum) (level : GLint) (ifmt : GLenum) (w h : GLsizei)
      (border : GLint) (fmt ty : GLenum) (data : voidptr)
  | TexSubImage2D (target : GLenum) (level xoff yoff : GLint) (w h : GLsizei)
      (fmt ty : GLenum) (data : voidptr)
  | CompressedTexImage2D (target : GLenum) (level : GLint) (ifmt : GLenum)
      (w h : GLsizei) (border : GLint) (size : GLsizei) (data : voidptr)
  | CompressedTexSubImage2D (target : GLenum) (level xoff yoff : GLint)
      (w h : GLsizei) (fmt : GLenum) (size : GLsizei) (data : voidptr)
  | TexImage3D (target : GLenum) (level : GLint) (ifmt : GLenum) (w h d : GLsizei)
      (border : GLint) (fmt ty : GLenum) (data : voidptr)
  | TexSubImage3D (target : GLenum) (level xoff yoff zoff : GLint)
      (w h d : GLsizei) (fmt ty : GLenum) (data : voidptr)
  | CompressedTexImage3D (target : GLenum) (level : GLint) (ifmt : GLenum)
      (w h d : GLsizei) (border : GLint) (size : GLsizei) (data : voidptr)
  | CompressedTexSubImage3D (target : GLenum) (level xoff yoff zoff : GLint)
      (w h d : GLsizei) (fmt : GLenum) (size : GLsizei) (data : voidptr)
  | GetError.

Inductive InternalRequirement := SwizzleAlphaTexturesReq.
Inductive InternalFeatures := TexStorage.
Inductive DeviceFeatures := Texture2DArray | Texture3D.
Inductive TextureFeatures :=
  | TextureCompressionTexStorage
  | TextureCompressionTexImage.

(** [context.deviceFeatures()] *)
Record DeviceFeatureSet := mkFeatures {
  hasInternalRequirement : InternalRequirement -> bool;
  hasInternalFeature : InternalFeatures -> bool;
  hasFeature : DeviceFeatures -> bool;
  hasTextureFeature : TextureFeatures -> bool;
  getTextureFormatCapabilities : TextureFormat -> N
}.

Record IContext := mkContext {
  calls : list GLCall;
  bound : gmap N N;
  deviceFeatures : DeviceFeatureSet
}.

(** An entry point that only reaches the driver: it is appended to the log. *)
Definition issue (c : GLCall) (ctx : IContext) : IContext :=
  {| calls := calls ctx ++ [c];
     bound := bound ctx;
     deviceFeatures := deviceFeatures ctx |}.

(** [bindTexture] also rewrites the binding of its target. *)
Definition bindTexture (target : GLenum) (id : GLuint) (ctx : IContext) : IContext :=
  {| calls := calls ctx ++ [BindTexture target id];
     bound := <[target := id]> (bound ctx);
     deviceFeatures := deviceFeatures ctx |}.

Definition texParameteri (target pname param : GLenum) : IContext -> IContext :=
  issue (TexParameteri target pname param).

Definition pixelStorei (pname : GLenum) (param : GLint) : IContext -> IContext :=
  issue (PixelStorei pname param).

(** The object bound to [target]; 0 is the default (nothing bound). *)
Definition boundTo (ctx : IContext) (target : GLenum) : GLuint :=
  default 0 (bound ctx !! target).

(** ** The texture object *)

Record TextureBuffer := mkTexture {
  textureID_ : GLuint;
  target_ : GLenum;
  textureHandle_ : N;
  type_ : TextureType;
  usage_ : N;
  format_ : TextureFormat;
  numMipLevels_ : N;
  width_ : N; height_ : N; depth_ : N; numLayers_ : N;
  formatDescGL_ : FormatDescGL;
  glInternalFormat_ : GLenum
}.

Definition getId (t : TextureBuffer) : GLuint := textureID_ t.
Definition getTarget (t : TextureBuffer) : GLenum := target_ t.
Definition getType (t : TextureBuffer) : TextureType := type_ t.
Definition getUsage (t : TextureBuffer) : N := usage_ t.
Definition getFormat (t : TextureBuffer) : TextureFormat := format_ t.
Definition getNumMipLevels (t : TextureBuffer) : N := numMipLevels_ t.

Definition set_textureHandle (h : N) (t : TextureBuffer) : TextureBuffer :=
  mkTexture (textureID_ t) (target_ t) h (type_ t) (usage_ t) (format_ t)
    (numMipLevels_ t) (width_ t) (height_ t) (depth_ t) (numLayers_ t)
    (formatDescGL_ t) (glInternalFormat_ t).

Definition set_formatDescGL (f : FormatDescGL) (t : TextureBuffer) : TextureBuffer :=
  mkTexture (textureID_ t) (target_ t) (textureHandle_ t) (type_ t) (usage_ t)
    (format_ t) (numMipLevels_ t) (width_ t) (height_ t) (depth_ t)
    (numLayers_ t) f (glInternalFormat_ t).

Definition set_glInternalFormat (g : GLenum) (t : TextureBuffer) : TextureBuffer :=
  mkTexture (textureID_ t) (target_ t) (textureHandle_ t) (type_ t) (usage_ t)
    (format_ t) (numMipLevels_ t) (width_ t) (height_ t) (depth_ t)
    (numLayers_ t) (formatDescGL_ t) g.

(** [setTextureBufferProperties(textureID, target)] *)
Definition setTextureBufferProperties (id : GLuint) (target : GLenum)
    (t : TextureBuffer) : TextureBuffer :=
  mkTexture id target (textureHandle_ t) (type_ t) (usage_ t) (format_ t)
    (numMipLevels_ t) (width_ t) (height_ t) (depth_ t) (numLayers_ t)
    (formatDescGL_ t) (glInternalFormat_ t).

(** [setUsage(usage)] *)
Definition setUsage (u : N) (t : TextureBuffer) : TextureBuffer :=
  mkTexture (textureID_ t) (target_ t) (textureHandle_ t) (type_ t) u
    (format_ t) (numMipLevels_ t) (width_ t) (height_ t) (depth_ t)
    (numLayers_ t) (formatDescGL_ t) (glInternalFormat_ t).

(** ** What the file takes from its base classes, headers and the driver *)

Class Env := {
  (** [TextureDesc::TextureUsageBits] *)
  Sampled : N;
  Storage : N;
  (** [ICapabilities::TextureFormatCapabilityBits::Storage] and [contains] *)
  CapabilityStorage : N;
  contains : N -> N -> bool;
  (** [TextureFormat::A_UNorm8] *)
  A_UNorm8 : TextureFormat;
  (** [getProperties().isCompressed()], [getProperties().getBytesPerRange] *)
  isCompressed : TextureFormat -> bool;
  getBytesPerRange : TextureFormat -> TextureRangeDesc -> N;
  (** inherited helpers of [Texture] / [ITexture] *)
  validateRange : TextureBuffer -> TextureRangeDesc -> Result;
  isValidForTexImage : TextureBuffer -> TextureRangeDesc -> bool;
  getFullRange : TextureBuffer -> N -> N -> TextureRangeDesc;
  getAlignment : TextureBuffer -> N -> N -> GLint;
  setMaxMipLevel : TextureBuffer -> IContext -> IContext;
  toGLTarget : TextureType -> N -> GLenum;
  toFormatDescGL : TextureFormat -> N -> FormatDescGL -> bool * FormatDescGL;
  Super_create :
    TextureDesc -> bool -> TextureBuffer -> IContext ->
    Result * TextureBuffer * IContext;
  (** the driver: what it answers after a given history of entry points *)
  glGetError : list GLCall -> Result;
  glGetTextureHandle : list GLCall -> GLuint -> N;
  glGenTexture : list GLCall -> GLuint
}.

Section Model.
Context `{Env}.

(** [getContext().getLastError()] polls the driver. *)
Definition getLastError (ctx : IContext) : Result * IContext :=
  (glGetError (calls ctx), issue GetError ctx).

(** *** Lifetime *)

(** [TextureBuffer::~TextureBuffer] *)
Definition TextureBuffer_destructor (t : TextureBuffer) (ctx : IContext) : IContext :=
  let textureID := getId t in
  if negb (textureID =? 0) then
    let ctx :=
      if negb (textureHandle_ t =? 0)
      then issue (MakeTextureHandleNonResident (textureHandle_ t)) ctx
      else ctx in
    issue (DeleteTextures [textureID]) ctx
  else ctx.

(** [TextureBuffer::getTextureId]; [textureHandle_] is a mutable member. *)
Definition getTextureId (t : TextureBuffer) (ctx : IContext)
    : N * TextureBuffer * IContext :=
  if textureHandle_ t =? 0 then
    let h := glGetTextureHandle (calls ctx) (getId t) in
    let ctx := issue (GetTextureHandle (getId t)) ctx in
    let t := set_textureHandle h t in
    let ctx := issue (MakeTextureHandleResident (textureHandle_ t)) ctx in
    (textureHandle_ t, t, ctx)
  else (textureHandle_ t, t, ctx).

(** [n] successive calls of [getTextureId] on the same object: the values
    returned, in order, and the object and context left behind. *)
Fixpoint getTextureId_repeat (n : nat) (t : TextureBuffer) (ctx : IContext)
    : list N * TextureBuffer * IContext :=
  match n with
  | O => ([], t, ctx)
  | S n' =>
      let '(h, t1, ctx1) := getTextureId t ctx in
      let '(hs, t2, ctx2) := getTextureId_repeat n' t1 ctx1 in
      (h :: hs, t2, ctx2)
  end.

(** *** Allocation strategy *)

(** [TextureBuffer::supportsTexStorage]: the resource uses immutable storage. *)
Definition supportsTexStorage (t : TextureBuffer) (ctx : IContext) : bool :=
  negb (N.land (getUsage t) Storage =? 0) &&
  contains (getTextureFormatCapabilities (deviceFeatures ctx) (getFormat t))
           CapabilityStorage.

(** [TextureBuffer::canInitialize] *)
Definition canInitialize (t : TextureBuffer) (ctx : IContext) : bool :=
  negb (isCompressed (getFormat t)) ||
  (supportsTexStorage t ctx &&
   hasTextureFeature (deviceFeatures ctx) TextureCompressionTexStorage) ||
  hasTextureFeature (deviceFeatures ctx) TextureCompressionTexImage.

(** *** Per-dimension upload routines *)

(** [TextureBuffer::upload1D] *)
Definition upload1D (t : TextureBuffer) (target : GLenum)
    (range : TextureRangeDesc) (data : voidptr) (ctx : IContext)
    : Result * IContext :=
  let result := validateRange t range in
  if negb (isOk result) then (result, ctx) else
  let texImage := isValidForTexImage t range && negb (supportsTexStorage t ctx) in
  let fd := formatDescGL_ t in
  let ctx :=
    if is_nullptr data || negb (isCompressed (getFormat t)) then
      if texImage then
        issue (TexImage1D target (to_GLint (mipLevel range)) (internalFormat fd)
                 (to_GLint (width range)) 0%Z (format fd) (type fd) data) ctx
      else
        issue (TexSubImage1D target (to_GLint (mipLevel range))
                 (to_GLint (x range)) (to_GLint (width range))
                 (format fd) (type fd) data) ctx
    else
      let numCompressedBytes := getBytesPerRange (getFormat t) range in
      if texImage then
        issue (CompressedTexImage1D target (to_GLint (mipLevel range))
                 (internalFormat fd) (to_GLint (width range)) 0%Z
                 (to_GLint numCompressedBytes) data) ctx
      else
        issue (CompressedTexSubImage1D (getTarget t) (to_GLint (mipLevel range))
                 (to_GLint (x range)) (to_GLint (width range))
                 (internalFormat fd) (to_GLint numCompressedBytes) data) ctx in
  getLastError ctx.

(** [TextureBuffer::upload1DArray] *)
Definition upload1DArray (t : TextureBuffer) (target : GLenum)
    (range : TextureRangeDesc) (data : voidptr) (ctx : IContext)
    : Result * IContext :=
  let result := validateRange t range in
  if negb (isOk result) then (result, ctx) else
  let texImage := isValidForTexImage t range && negb (supportsTexStorage t ctx) in
  let fd := formatDescGL_ t in
  let ctx :=
    if is_nullptr data || negb (isCompressed (getFormat t)) then
      if texImage then
        issue (TexImage2D target (to_GLint (mipLevel range)) (internalFormat fd)
                 (to_GLint (width range)) (to_GLint (numLayers range)) 0%Z
                 (format fd) (type fd) data) ctx
      else
        issue (TexSubImage2D target (to_GLint (mipLevel range))
                 (to_GLint (x range)) (to_GLint (layer range))
                 (to_GLint (width range)) (to_GLint (numLayers range))
                 (format fd) (type fd) data) ctx
    else
      let numCompressedBytes := getBytesPerRange (getFormat t) range in
      if texImage then
        issue (CompressedTexImage2D target (to_GLint (mipLevel range))
                 (internalFormat fd) (to_GLint (width range))
                 (to_GLint (numLayers range)) 0%Z
                 (to_GLint numCompressedBytes) data) ctx
      else
        issue (CompressedTexSubImage2D (getTarget t) (to_GLint (mipLevel range))
                 (to_GLint (x range)) (to_GLint (layer range))
                 (to_GLint (width range)) (to_GLint (numLayers range))
                 (internalFormat fd) (to_GLint numCompressedBytes) data) ctx in
  getLastError ctx.

(** [TextureBuffer::upload2D] *)
Definition upload2D (t : TextureBuffer) (target : GLenum)
    (range : TextureRangeDesc) (data : voidptr) (ctx : IContext)
    : Result * IContext :=
  let result := validateRange t range in
  if negb (isOk result) then (result, ctx) else
  let texImage := isValidForTexImage t range && negb (supportsTexStorage t ctx) in
  let fd := formatDescGL_ t in
  let ctx :=
    if is_nullptr data || negb (isCompressed (getFormat t)) then
      if texImage then
        issue (TexImage2D target (to_GLint (mipLevel range)) (internalFormat fd)
                 (to_GLint (width range)) (to_GLint (height range)) 0%Z
                 (format fd) (type fd) data) ctx
      else
        issue (TexSubImage2D target (to_GLint (mipLevel range))
                 (to_GLint (x range)) (to_GLint (y range))
                 (to_GLint (width range)) (to_GLint (height range))
                 (format fd) (type fd) data) ctx
    else
      let numCompressedBytes := getBytesPerRange (getFormat t) range in
      if texImage then
        issue (CompressedTexImage2D target (to_GLint (mipLevel range))
                 (internalFormat fd) (to_GLint (width range))
                 (to_GLint (height range)) 0%Z
                 (to_GLint numCompressedBytes) data) ctx
      else
        issue (CompressedTexSubImage2D (getTarget t) (to_GLint (mipLevel range))
                 (to_GLint (x range)) (to_GLint (y range))
                 (to_GLint (width range)) (to_GLint (height range))
                 (internalFormat fd) (to_GLint numCompressedBytes) data) ctx in
  getLastError ctx.

(** [TextureBuffer::upload2DArray] *)
Definition upload2DArray (t : TextureBuffer) (target : GLenum)
    (range : TextureRangeDesc) (data : voidptr) (ctx : IContext)
    : Result * IContext :=
  let result := validateRange t range in
  if negb (isOk result) then (result, ctx) else
  let texImage := isValidForTexImage t range && negb (supportsTexStorage t ctx) in
  let fd := formatDescGL_ t in
  let ctx :=
    if is_nullptr data || negb (isCompressed (getFormat t)) then
      if texImage then
        issue (TexImage3D target (to_GLint (mipLevel range)) (internalFormat fd)
                 (to_GLint (width range)) (to_GLint (height range))
                 (to_GLint (numLayers range)) 0%Z
                 (format fd) (type fd) data) ctx
      else
        issue (TexSubImage3D target (to_GLint (mipLevel range))
                 (to_GLint (x range)) (to_GLint (y range)) (to_GLint (layer range))
                 (to_GLint (width range)) (to_GLint (height range))
                 (to_GLint (numLayers range))
                 (format fd) (type fd) data) ctx
    else
      let numCompressedBytes := getBytesPerRange (getFormat t) range in
      if texImage then
        issue (CompressedTexImage3D target (to_GLint (mipLevel range))
                 (internalFormat fd) (to_GLint (width range))
                 (to_GLint (height range)) (to_GLint (numLayers range)) 0%Z
                 (to_GLint numCompressedBytes) data) ctx
      else
        issue (CompressedTexSubImage3D (getTarget t) (to_GLint (mipLevel range))
                 (to_GLint (x range)) (to_GLint (y range)) (to_GLint (layer range))
                 (to_GLint (width range)) (to_GLint (height range))
                 (to_GLint (numLayers range))
                 (internalFormat fd) (to_GLint numCompressedBytes) data) ctx in
  getLastError ctx.

(** [TextureBuffer::upload3D] *)
Definition upload3D (t : TextureBuffer) (target : GLenum)
    (range : TextureRangeDesc) (data : voidptr) (ctx : IContext)
    : Result * IContext :=
  let result := validateRange t range in
  if negb (isOk result) then (result, ctx) else
  let texImage := isValidForTexImage t range && negb (supportsTexStorage t ctx) in
  let fd := formatDescGL_ t in
  let ctx :=
    if is_nullptr data || negb (isCompressed (getFormat t)) then
      if texImage then
        issue (TexImage3D target (to_GLint (mipLevel range)) (internalFormat fd)
                 (to_GLint (width range)) (to_GLint (height range))
                 (to_GLint (depth range)) 0%Z
                 (format fd) (type fd) data) ctx
      else
        issue (TexSubImage3D target (to_GLint (mipLevel range))
                 (to_GLint (x range)) (to_GLint (y range)) (to_GLint (z range))
                 (to_GLint (width range)) (to_GLint (height range))
                 (to_GLint (depth range))
                 (format fd) (type fd) data) ctx
    else
      let numCompressedBytes := getBytesPerRange (getFormat t) range in
      if texImage then
        issue (CompressedTexImage3D target (to_GLint (mipLevel range))
                 (internalFormat fd) (to_GLint (width range))
                 (to_GLint (height range)) (to_GLint (depth range)) 0%Z
                 (to_GLint numCompressedBytes) data) ctx
      else
        issue (CompressedTexSubImage3D (getTarget t) (to_GLint (mipLevel range))
                 (to_GLint (x range)) (to_GLint (y range)) (to_GLint (z range))
                 (to_GLint (width range)) (to_GLint (height range))
                 (to_GLint (depth range))
                 (internalFormat fd) (to_GLint numCompressedBytes) data) ctx in
  getLastError ctx.

(** *** Dispatch *)

(** [kCubeFaceTargets] *)
Definition kCubeFaceTargets : list GLenum :=
  [GL_TEXTURE_CUBE_MAP_POSITIVE_X; GL_TEXTURE_CUBE_MAP_NEGATIVE_X;
   GL_TEXTURE_CUBE_MAP_POSITIVE_Y; GL_TEXTURE_CUBE_MAP_NEGATIVE_Y;
   GL_TEXTURE_CUBE_MAP_POSITIVE_Z; GL_TEXTURE_CUBE_MAP_NEGATIVE_Z].

(** The [for (auto cubeTarget : kCubeFaceTargets)] loop of [upload]. *)
Fixpoint upload_faces (t : TextureBuffer) (targets : list GLenum)
    (range : TextureRangeDesc) (data : voidptr) (ctx : IContext)
    : Result * IContext :=
  match targets with
  | [] => (Result_default, ctx)
  | cubeTarget :: rest =>
      let '(result, ctx) := upload2D t cubeTarget range data ctx in
      if negb (isOk result) then (result, ctx)
      else upload_faces t rest range data ctx
  end.

(** [TextureBuffer::upload(GLenum target, range, data, bytesPerRow)] *)
Definition upload_target (t : TextureBuffer) (target : GLenum)
    (range : TextureRangeDesc) (data : voidptr) (bytesPerRow : N)
    (ctx : IContext) : Result * IContext :=
  if 1 <? numMipLevels range then
    (mkResult Unimplemented
       "Uploading to more than 1 mip level is not yet supported.", ctx)
  else
  let ctx :=
    pixelStorei GL_UNPACK_ALIGNMENT
      (getAlignment t bytesPerRow (mipLevel range)) ctx in
  match type_ t with
  | TwoD => upload2D t target range data ctx
  | TwoDArray =>
      if negb (hasFeature (deviceFeatures ctx) Texture2DArray) then
        (mkResult Unsupported "Unsupported texture type", ctx)
      else upload2DArray t target range data ctx
  | ThreeD =>
      if negb (hasFeature (deviceFeatures ctx) Texture3D) then
        (mkResult Unsupported "Unsupported texture type", ctx)
      else upload3D t target range data ctx
  | Cube => upload_faces t kCubeFaceTargets range data ctx
  | _ => (mkResult InvalidOperation "Unknown texture type", ctx)
  end.

(** [TextureBuffer::upload(range, data, bytesPerRow)], the public entry. *)
Definition upload (t : TextureBuffer) (range : TextureRangeDesc)
    (data : voidptr) (bytesPerRow : N) (ctx : IContext) : Result * IContext :=
  if is_nullptr data then (Result_default, ctx) else
  let target := getTarget t in
  if target =? 0 then (mkResult InvalidOperation "Unknown texture type", ctx) else
  let ctx := bindTexture target (getId t) ctx in
  let '(result, ctx) := upload_target t target range data bytesPerRow ctx in
  let ctx := bindTexture (getTarget t) 0 ctx in
  (result, ctx).

(** [TextureBuffer::uploadCube] *)
Definition uploadCube (t : TextureBuffer) (range : TextureRangeDesc)
    (face : TextureCubeFace) (data : voidptr) (bytesPerRow : N)
    (ctx : IContext) : Result * IContext :=
  if is_nullptr data then (Result_default, ctx) else
  if 1 <? numMipLevels range then
    (mkResult Unimplemented
       "Uploading to more than 1 mip level is not yet supported.", ctx)
  else
  let target := getTarget t in
  if negb (target =? GL_TEXTURE_CUBE_MAP) then
    (mkResult InvalidOperation "upload2D can only upload to 2D textures", ctx)
  else
  let ctx :=
    pixelStorei GL_UNPACK_ALIGNMENT
      (getAlignment t bytesPerRow (mipLevel range)) ctx in
  let ctx := bindTexture target (getId t) ctx in
  let cubeTarget := nth (face_index face) kCubeFaceTargets 0 in
  let '(result, ctx) := upload2D t cubeTarget range data ctx in
  let ctx := bindTexture target 0 ctx in
  (Result_default, ctx).

(** *** Mip-chain initialization *)

(** The loop of [initializeWithUpload]: [i] is the loop counter and [n] the
    number of iterations left, [getNumMipLevels() - i].  The call passes no
    [bytesPerRow], which the declaration defaults to 0, and [getFullRange(i)]
    is [getFullRange(i, 1)]. *)
Fixpoint initializeWithUpload_loop (n : nat) (i : N) (t : TextureBuffer)
    (target : GLenum) (ctx : IContext) : Result * IContext :=
  match n with
  | O => (Result_default, ctx)
  | S n' =>
      let range := getFullRange t i 1 in
      let '(result, ctx) := upload_target t target range nullptr 0 ctx in
      if negb (isOk result) then (result, ctx)
      else initializeWithUpload_loop n' (i + 1) t target ctx
  end.

(** [TextureBuffer::initializeWithUpload] *)
Definition initializeWithUpload (t : TextureBuffer) (ctx : IContext)
    : Result * IContext :=
  let target := getTarget t in
  initializeWithUpload_loop (N.to_nat (getNumMipLevels t)) 0 t target ctx.

(** [TextureBuffer::initializeWithTexStorage] *)
Definition initializeWithTexStorage (t : TextureBuffer) (ctx : IContext)
    : Result * IContext :=
  let range := getFullRange t 0 (getNumMipLevels t) in
  let target := getTarget t in
  match getType t with
  | TwoD =>
      getLastError
        (issue (TexStorage2D target (to_GLint (numMipLevels range))
                  (glInternalFormat_ t)
                  (to_GLint (width range)) (to_GLint (height range))) ctx)
  | TwoDArray =>
      getLastError
        (issue (TexStorage3D target (to_GLint (numMipLevels range))
                  (glInternalFormat_ t)
                  (to_GLint (width range)) (to_GLint (height range))
                  (to_GLint (numLayers range))) ctx)
  | ThreeD =>
      getLastError
        (issue (TexStorage3D target (to_GLint (numMipLevels range))
                  (glInternalFormat_ t)
                  (to_GLint (width range)) (to_GLint (height range))
                  (to_GLint (depth range))) ctx)
  | Cube =>
      getLastError
        (issue (TexStorage2D target (to_GLint (numMipLevels range))
                  (glInternalFormat_ t)
                  (to_GLint (width range)) (to_GLint (height range))) ctx)
  | _ => (mkResult InvalidOperation "Unknown texture type", ctx)
  end.

(** [swapTextureChannelsForFormat] *)
Definition swapTextureChannelsForFormat (ctx : IContext) (target : GLenum)
    (iglFormat : TextureFormat) : IContext :=
  if (iglFormat =? A_UNorm8) &&
     hasInternalRequirement (deviceFeatures ctx) SwizzleAlphaTexturesReq then
    if iglFormat =? A_UNorm8 then
      let ctx := texParameteri target GL_TEXTURE_SWIZZLE_R GL_ZERO ctx in
      let ctx := texParameteri target GL_TEXTURE_SWIZZLE_G GL_ZERO ctx in
      let ctx := texParameteri target GL_TEXTURE_SWIZZLE_B GL_ZERO ctx in
      texParameteri target GL_TEXTURE_SWIZZLE_A GL_RED ctx
    else ctx
  else ctx.

(** [TextureBuffer::initialize] *)
Definition initialize (t : TextureBuffer) (ctx : IContext) : Result * IContext :=
  let target := getTarget t in
  if target =? 0 then (mkResult InvalidOperation "Unknown texture type", ctx) else
  let ctx := bindTexture target (getId t) ctx in
  let ctx := setMaxMipLevel t ctx in
  let ctx :=
    if getNumMipLevels t =? 1
    then texParameteri target GL_TEXTURE_MIN_FILTER GL_NEAREST ctx
    else ctx in
  let ctx :=
    if negb (isCompressed (getFormat t))
    then swapTextureChannelsForFormat ctx target (getFormat t)
    else ctx in
  let '(result, ctx) :=
    if canInitialize t ctx then
      if negb (supportsTexStorage t ctx) then initializeWithUpload t ctx
      else initializeWithTexStorage t ctx
    else (Result_default, ctx) in
  let ctx := bindTexture (getTarget t) 0 ctx in
  (result, ctx).

(** *** Creation *)

(** [TextureBuffer::createTexture] *)
Definition createTexture (desc : TextureDesc) (t : TextureBuffer)
    (ctx : IContext) : Result * TextureBuffer * IContext :=
  let target := toGLTarget (desc_type desc) (desc_numSamples desc) in
  if target =? 0 then
    (mkResult Unsupported "Unsupported texture target", t, ctx)
  else
  let usageForFormat :=
    if N.land (desc_usage desc) Storage =? 0
    then N.lor (desc_usage desc) Sampled
    else desc_usage desc in
  let '(ok, fd) :=
    toFormatDescGL (desc_format desc) usageForFormat (formatDescGL_ t) in
  let t := set_formatDescGL fd t in
  if negb ok then
    (mkResult ArgumentInvalid "Invalid texture format", t, ctx)
  else
  if negb (isCompressed (getFormat t)) && (type (formatDescGL_ t) =? GL_NONE) then
    (mkResult ArgumentInvalid "Invalid texture type", t, ctx)
  else
  if negb (N.land (desc_usage desc) Storage =? 0) &&
     negb (hasInternalFeature (deviceFeatures ctx) TexStorage) then
    (mkResult Unsupported "Texture Storage not supported", t, ctx)
  else
  let t := set_glInternalFormat (internalFormat (formatDescGL_ t)) t in
  let textureID := glGenTexture (calls ctx) in
  let ctx := issue (GenTextures 1) ctx in
  let t := setTextureBufferProperties textureID target t in
  let t := setUsage (desc_usage desc) t in
  match desc_type desc with
  | ExternalImage => (Result_default, t, ctx)
  | _ => let '(result, ctx) := initialize t ctx in (result, t, ctx)
  end.

(** [TextureBuffer::create] *)
Definition create (desc : TextureDesc) (hasStorageAlready : bool)
    (t : TextureBuffer) (ctx : IContext) : Result * TextureBuffer * IContext :=
  let '(result, t, ctx) := Super_create desc hasStorageAlready t ctx in
  if isOk result then
    let isSampledOrStorage :=
      negb (N.land (desc_usage desc) (N.lor Sampled Storage) =? 0) in
    if isSampledOrStorage
       || negb (bool_decide (desc_type desc = TwoD))
       || (1 <? desc_numMipLevels desc)
    then createTexture desc t ctx
    else (mkResult Unsupported "invalid usage!", t, ctx)
  else (result, t, ctx).

End Model.

(** ** Vocabulary of the properties *)

(** The two transfer paths.  An image-replace call (re)defines the storage of
    a level; a sub-image-replace call updates a region of existing storage.
    Plain and compressed entry points belong to the same path. *)
Definition isImageReplace (c : GLCall) : bool :=
  match c with
  | TexImage1D _ _ _ _ _ _ _ _ | CompressedTexImage1D _ _ _ _ _ _ _
  | TexImage2D _ _ _ _ _ _ _ _ _ | CompressedTexImage2D _ _ _ _ _ _ _ _
  | TexImage3D _ _ _ _ _ _ _ _ _ _ | CompressedTexImage3D _ _ _ _ _ _ _ _ _ =>
      true
  | _ => false
  end.

Definition isSubImageReplace (c : GLCall) : bool :=
  match c with
  | TexSubImage1D _ _ _ _ _ _ _ | CompressedTexSubImage1D _ _ _ _ _ _ _
  | TexSubImage2D _ _ _ _ _ _ _ _ _ | CompressedTexSubImage2D _ _ _ _ _ _ _ _ _
  | TexSubImage3D _ _ _ _ _ _ _ _ _ _ _
  | CompressedTexSubImage3D _ _ _ _ _ _ _ _ _ _ _ =>
      true
  | _ => false
  end.

Definition isCompressedTransfer (c : GLCall) : bool :=
  match c with
  | CompressedTexImage1D _ _ _ _ _ _ _ | CompressedTexSubImage1D _ _ _ _ _ _ _
  | CompressedTexImage2D _ _ _ _ _ _ _ _
  | CompressedTexSubImage2D _ _ _ _ _ _ _ _ _
  | CompressedTexImage3D _ _ _ _ _ _ _ _ _
  | CompressedTexSubImage3D _ _ _ _ _ _ _ _ _ _ _ =>
      true
  | _ => false
  end.

(** The client pointer a transfer call hands to the driver. *)
Definition transferData (c : GLCall) : option voidptr :=
  match c with
  | TexImage1D _ _ _ _ _ _ _ d | TexSubImage1D _ _ _ _ _ _ d
  | CompressedTexImage1D _ _ _ _ _ _ d | CompressedTexSubImage1D _ _ _ _ _ _ d
  | TexImage2D _ _ _ _ _ _ _ _ d | TexSubImage2D _ _ _ _ _ _ _ _ d
  | CompressedTexImage2D _ _ _ _ _ _ _ d
  | CompressedTexSubImage2D _ _ _ _ _ _ _ _ d
  | TexImage3D _ _ _ _ _ _ _ _ _ d | TexSubImage3D _ _ _ _ _ _ _ _ _ _ d
  | CompressedTexImage3D _ _ _ _ _ _ _ _ d
  | CompressedTexSubImage3D _ _ _ _ _ _ _ _ _ _ d =>
      Some d
  | _ => None
  end.

Definition isTransfer (c : GLCall) : bool :=
  isImageReplace c || isSubImageReplace c.



(** What a call leaves behind when it bound the resource: the binding of the
    resource's target is back to 0, every other binding is the one the call
    found, and the unbind is the last thing issued. *)
Definition unbound_after (t : TextureBuffer) (ctx out : IContext) : Prop :=
  bound out = <[getTarget t := 0]> (bound ctx) /\
  boundTo out (getTarget t) = 0 /\
  last (calls out) = Some (BindTexture (getTarget t) 0).

(** [out] is [ctx] after the entry points [l], with the same capabilities. *)
Definition extends (ctx out : IContext) (l : list GLCall) : Prop :=
  calls out = calls ctx ++ l /\ deviceFeatures out = deviceFeatures ctx.

(** A transfer call obeys the selection rule for [range] on [t]. *)
Definition follows_selection `{Env} (t : TextureBuffer) (ctx : IContext)
    (range : TextureRangeDesc) (c : GLCall) : Prop :=
  isTransfer c = true ->
  isSubImageReplace c = negb (isImageReplace c) /\
  isImageReplace c
    = isValidForTexImage t range && negb (supportsTexStorage t ctx).

(** The five per-dimension upload routines. *)
Inductive UploadRoutine :=
  | Upload1D | Upload1DArray | Upload2D | Upload2DArray | Upload3D.

Definition run_routine `{Env} (r : UploadRoutine)
    : TextureBuffer -> GLenum -> TextureRangeDesc -> voidptr -> IContext ->
      Result * IContext :=
  match r with
  | Upload1D => upload1D
  | Upload1DArray => upload1DArray
  | Upload2D => upload2D
  | Upload2DArray => upload2DArray
  | Upload3D => upload3D
  end.


(** ** A reference environment

    Used to evaluate the model on concrete inputs. *)

(** Modelled from the spec: the extent of a level, missing from the sources
    (it belongs to the texture base class); a level halves each extent and
    never goes below one texel. *)
Definition mipExtent (v mip : N) : N := N.max (N.shiftr v mip) 1.

(** Modelled from the spec: [validateRange], missing from the sources; "offset
    + extent must not exceed the resource's extent at that mip level". *)
Definition ref_validateRange (t : TextureBuffer) (r : TextureRangeDesc) : Result :=
  if (x r + width r <=? mipExtent (width_ t) (mipLevel r)) &&
     (y r + height r <=? mipExtent (height_ t) (mipLevel r)) &&
     (z r + depth r <=? mipExtent (depth_ t) (mipLevel r)) &&
     (layer r + numLayers r <=? numLayers_ t) &&
     (mipLevel r <? numMipLevels_ t)
  then Result_default
  else mkResult ArgumentInvalid "range exceeds texture bounds".

(** Modelled from the spec: [isValidForTexImage], missing from the sources;
    the range "covers the entire resource at that mip level". *)
Definition ref_isValidForTexImage (t : TextureBuffer) (r : TextureRangeDesc) : bool :=
  (x r =? 0) && (y r =? 0) && (z r =? 0) && (layer r =? 0) &&
  (width r =? mipExtent (width_ t) (mipLevel r)) &&
  (height r =? mipExtent (height_ t) (mipLevel r)) &&
  (depth r =? mipExtent (depth_ t) (mipLevel r)) &&
  (numLayers r =? numLayers_ t).

(** Modelled from the spec: [getFullRange], missing from the sources; "the full
    extent of each level". *)
Definition ref_getFullRange (t : TextureBuffer) (mip n : N) : TextureRangeDesc :=
  mkRange 0 0 0
    (mipExtent (width_ t) mip) (mipExtent (height_ t) mip)
    (mipExtent (depth_ t) mip)
    0 (numLayers_ t) mip n.

(** Modelled from the spec: [toGLTarget], missing from the sources; one GL
    target per dimensionality, 0 when there is none. *)
Definition ref_toGLTarget (ty : TextureType) (samples : N) : GLenum :=
  match ty with
  | Invalid => 0
  | TwoD => 0x0DE1
  | TwoDArray => 0x8C1A
  | ThreeD => 0x806F
  | Cube => GL_TEXTURE_CUBE_MAP
  | ExternalImage => 0x8D65
  end.

(** Modelled from the spec: the base-class [create], missing from the
    sources; it records the descriptor on the object and touches no GL
    state. *)
Definition ref_Super_create (d : TextureDesc) (hasStorageAlready : bool)
    (t : TextureBuffer) (ctx : IContext) : Result * TextureBuffer * IContext :=
  (Result_default,
   mkTexture (textureID_ t) (target_ t) (textureHandle_ t) (desc_type d)
     (usage_ t) (desc_format d) (desc_numMipLevels d)
     (desc_width d) (desc_height d) (desc_depth d) (desc_numLayers d)
     (formatDescGL_ t) (glInternalFormat_ t),
   ctx).

(** A driver that reports [err log] when polled after the history [log],
    names textures 1, 2, ... and resolves the handle of texture [id] to
    [handleOf id]. *)
Definition refEnv (err : list GLCall -> Result) (handleOf : GLuint -> N) : Env :=
  {| Sampled := 1;
     Storage := 2;
     CapabilityStorage := 16;
     contains := fun v f => N.land v f =? f;
     A_UNorm8 := 1;
     isCompressed := fun f => 100 <=? f;
     getBytesPerRange := fun _ r => 8 * ((width r + 3) / 4) * ((height r + 3) / 4);
     validateRange := ref_validateRange;
     isValidForTexImage := ref_isValidForTexImage;
     getFullRange := ref_getFullRange;
     getAlignment := fun _ _ _ => 4%Z;
     setMaxMipLevel := fun _ ctx => ctx;
     toGLTarget := ref_toGLTarget;
     toFormatDescGL := fun _ _ _ => (true, mkFormatDescGL 0x8058 0x1908 0x1401);
     Super_create := ref_Super_create;
     glGetError := err;
     glGetTextureHandle := fun _ id => handleOf id;
     glGenTexture := fun log => 1 + N.of_nat (length log) |}.

Definition noError : list GLCall -> Result := fun _ => Result_default.

(** The driver runs out of memory on any image-replace call for level 1. *)
Definition failsAtLevel1 (log : list GLCall) : Result :=
  match last log with
  | Some (TexImage2D _ 1%Z _ _ _ _ _ _ _) => mkResult RuntimeError "GL_OUT_OF_MEMORY"
  | _ => Result_default
  end.

Definition refFeatures (storageCaps : N) : DeviceFeatureSet :=
  {| hasInternalRequirement := fun _ => false;
     hasInternalFeature := fun _ => true;
     hasFeature := fun _ => true;
     hasTextureFeature := fun _ => true;
     getTextureFormatCapabilities := fun _ => storageCaps |}.

(** A context with nothing issued and nothing bound. *)
Definition ctx0 : IContext :=
  {| calls := []; bound := ∅; deviceFeatures := refFeatures 16 |}.

(** A 4x4 RGBA texture of the given type, id, target, usage and mip count. *)
Definition tex4x4 (ty : TextureType) (id : GLuint) (target : GLenum)
    (usage mips : N) : TextureBuffer :=
  {| textureID_ := id; target_ := target; textureHandle_ := 0;
     type_ := ty; usage_ := usage; format_ := 13; numMipLevels_ := mips;
     width_ := 4; height_ := 4; depth_ := 1; numLayers_ := 1;
     formatDescGL_ := mkFormatDescGL 0x8058 0x1908 0x1401;
     glInternalFormat_ := 0x8058 |}.

Definition full4x4 : TextureRangeDesc := mkRange 0 0 0 4 4 1 0 1 0 1.
Definition inner2x2 : TextureRangeDesc := mkRange 1 1 0 2 2 1 0 1 0 1.
Definition outside4x4 : TextureRangeDesc := mkRange 3 3 0 2 2 1 0 1 0 1.
Definition twoLevels4x4 : TextureRangeDesc := mkRange 0 0 0 4 4 1 0 1 0 2.

(** The reference environment with a driver that never reports an error and
    resolves every handle. *)
Definition residentHandle (id : GLuint) : N := 0x100000000 + id.

Definition E0 : Env := refEnv noError residentHandle.

(** A Sampled 2D texture (mutable storage), a Storage 2D texture (immutable
    storage on [ctx0]) and a Sampled cube texture. *)
Definition refTex2D : TextureBuffer := tex4x4 TwoD 7 0x0DE1 1 1.
Definition refTexStorage2D : TextureBuffer := tex4x4 TwoD 8 0x0DE1 2 1.
Definition refTexCube : TextureBuffer := tex4x4 Cube 9 GL_TEXTURE_CUBE_MAP 1 1.

(** A texture object on which [create] has not run yet. *)
Definition refTexNew : TextureBuffer := tex4x4 Invalid 0 0 0 0.

(** 4x4 2D descriptors, one mip level: attachment-only usage, sampled usage. *)
Definition descAttachment2D : TextureDesc := mkDesc 4 4 1 1 1 4 1 TwoD 13.
Definition descSampled2D : TextureDesc := mkDesc 4 4 1 1 1 1 1 TwoD 13.

(** ** Further vocabulary *)

(** The entry points an upload is made of: binding, pixel-store state, a
    transfer, the error poll. *)
Definition isUploadEntry (c : GLCall) : bool :=
  match c with
  | BindTexture _ _ | PixelStorei _ _ | GetError => true
  | _ => isTransfer c
  end.

(** The target a transfer call addresses. *)
Definition transferTarget (c : GLCall) : option GLenum :=
  match c with
  | TexImage1D tg _ _ _ _ _ _ _ | TexSubImage1D tg _ _ _ _ _ _
  | CompressedTexImage1D tg _ _ _ _ _ _ | CompressedTexSubImage1D tg _ _ _ _ _ _
  | TexImage2D tg _ _ _ _ _ _ _ _ | TexSubImage2D tg _ _ _ _ _ _ _ _
  | CompressedTexImage2D tg _ _ _ _ _ _ _
  | CompressedTexSubImage2D tg _ _ _ _ _ _ _ _
  | TexImage3D tg _ _ _ _ _ _ _ _ _ | TexSubImage3D tg _ _ _ _ _ _ _ _ _ _
  | CompressedTexImage3D tg _ _ _ _ _ _ _ _
  | CompressedTexSubImage3D tg _ _ _ _ _ _ _ _ _ _ =>
      Some tg
  | _ => None
  end.

(** The log of a sequence of transfers, each followed by its error poll. *)
Definition polled (cs : list GLCall) : list GLCall :=
  flat_map (fun c => [c; GetError]) cs.

(** What [initialize] issues before it populates the storage of a compressed
    resource: bind, maximum mip level, and the minification filter when there
    is a single level. *)
Definition compressed_prelude `{Env} (t : TextureBuffer) (ctx : IContext)
    : IContext :=
  let ctx := setMaxMipLevel t (bindTexture (getTarget t) (getId t) ctx) in
  if getNumMipLevels t =? 1
  then texParameteri (getTarget t) GL_TEXTURE_MIN_FILTER GL_NEAREST ctx
  else ctx.



(** The resource's dimensionality has an upload routine on this backend. *)
Definition dimension_supported (t : TextureBuffer) (ctx : IContext) : Prop :=
  In (type_ t) [TwoD; TwoDArray; ThreeD; Cube] /\
  (type_ t = TwoDArray -> hasFeature (deviceFeatures ctx) Texture2DArray = true) /\
  (type_ t = ThreeD -> hasFeature (deviceFeatures ctx) Texture3D = true).

(** What a storage-only transfer looks like on [t] for [range]: a plain call
    of the selected path whose data argument is the null pointer. *)
Definition allocates_only `{Env} (t : TextureBuffer) (ctx : IContext)
    (range : TextureRangeDesc) (c : GLCall) : Prop :=
  isTransfer c = true /\
  transferData c = Some nullptr /\
  isCompressedTransfer c = false /\
  isImageReplace c
    = isValidForTexImage t range && negb (supportsTexStorage t ctx) /\
  isSubImageReplace c = negb (isImageReplace c).

(** ** shell: [ImageLoaderAndroid]

    [src/shell/shared/imageLoader/android/ImageLoaderAndroid.cpp].  The asset
    manager is the NDK's; what the loader asks of it is logged, as for the GL
    context. *)

Inductive AssetCall :=
  | AAssetManager_open (name : string)
  | AAsset_getLength64
  | AAsset_read (count : Z)
  | AAsset_close.

(** An open asset: the length it reports, and for a read of [count] bytes the
    bytes it stores at the start of the buffer and the value it returns. *)
Record AAsset := mkAsset {
  asset_length : Z;
  asset_read : Z -> list Byte.byte * Z
}.

(** [AAssetManager_open]: [None] is the null asset. *)
Definition AAssetManager := string -> option AAsset.

(** What the loader inherits from [ImageLoader]: the image type with its
    default value [{}], the base-class loader and the in-memory decoder. *)
Class ImageLoader := {
  ImageData : Type;
  ImageData_default : ImageData;
  ImageLoader_loadImageData : string -> ImageData;
  loadImageDataFromMemory : list Byte.byte -> Z -> ImageData
}.

(** [std::numeric_limits<int>::max()] *)
Definition INT_MAX : Z := (2 ^ 31 - 1)%Z.

(** [std::make_unique<uint8_t[]>(length)] filled by a read that stored
    [bytes]: [length] bytes, zero where the read stored nothing. *)
Definition filled_buffer (length : Z) (bytes : list Byte.byte) : list Byte.byte :=
  take (Z.to_nat length) (bytes ++ replicate (Z.to_nat length) Byte.x00).

(** [imageName.c_str()] read as a C string: the characters of the
    [std::string] before its first NUL, all of them when it has none. *)
Fixpoint c_str (s : string) : string :=
  match s with
  | EmptyString => EmptyString
  | String c rest =>
      if Ascii.eqb c Ascii.zero then EmptyString else String c (c_str rest)
  end.

(** [ImageLoaderAndroid::loadImageData].  [imageName.empty()] and the
    base-class loader see the [std::string]; [AAssetManager_open] receives
    [imageName.c_str()], so it opens the name up to the first NUL.  The
    function is [noexcept]: a negative length converts to an allocation size
    no allocator grants, and the exception ends the program ([None]); an
    allocation of at most [INT_MAX] bytes is taken to succeed. *)
Definition loadImageData `{ImageLoader} (assetManager_ : option AAssetManager)
    (imageName : string) : option (ImageData * list AssetCall) :=
  if String.eqb imageName EmptyString then Some (ImageData_default, []) else
  match assetManager_ with
  | None => Some (ImageLoader_loadImageData imageName, [])
  | Some manager =>
      match manager (c_str imageName) with
      | None => Some (ImageData_default, [AAssetManager_open (c_str imageName)])
      | Some asset =>
          let length := asset_length asset in
          if (INT_MAX <? length)%Z then
            Some (ImageData_default,
                  [AAssetManager_open (c_str imageName); AAsset_getLength64;
                   AAsset_close])
          else
          if (length <? 0)%Z then None else
          let '(bytes, readSize) := asset_read asset length in
          let buffer := filled_buffer length bytes in
          Some (loadImageDataFromMemory buffer length,
                [AAssetManager_open (c_str imageName); AAsset_getLength64;
                 AAsset_read length; AAsset_close])
      end
  end.

(** A decoder that keeps what it is given, for running the loader. *)
Definition keepBytes : ImageLoader :=
  {| ImageData := list Byte.byte * Z;
     ImageData_default := ([], 0%Z);
     ImageLoader_loadImageData := fun _ => ([Byte.xff], 1%Z);
     loadImageDataFromMemory := fun b n => (b, n) |}.

(** An asset of four bytes whose read stops after two. *)
Definition shortAsset : AAsset :=
  mkAsset 4 (fun _ => ([Byte.x01; Byte.x02], 2%Z)).

Definition oneFile : AAssetManager :=
  fun name => if String.eqb name "a.png" then Some shortAsset else None.

(** The name "a.png", a NUL, and more text after it. *)
Definition nameWithNul : string :=
  String.append "a.png" (String Ascii.zero "x").

(** A compressed 4x4 texture (format code 100 is compressed in [refEnv]). *)
Definition refTexCompressed : TextureBuffer :=
  {| textureID_ := 5; target_ := 0x0DE1; textureHandle_ := 0;
     type_ := TwoD; usage_ := 1; format_ := 100; numMipLevels_ := 1;
     width_ := 4; height_ := 4; depth_ := 1; numLayers_ := 1;
     formatDescGL_ := mkFormatDescGL 0x83F0 0 0;
     glInternalFormat_ := 0x83F0 |}.

(** A backend with no texture-compression feature. *)
Definition ctxNoCompression : IContext :=
  {| calls := []; bound := ∅;
     deviceFeatures :=
       {| hasInternalRequirement := fun _ => false;
          hasInternalFeature := fun _ => false;
          hasFeature := fun _ => false;
          hasTextureFeature := fun _ => false;
          getTextureFormatCapabilities := fun _ => 0 |} |}.

(** Storage-usage 2D descriptor. *)
Definition descStorage2D : TextureDesc := mkDesc 4 4 1 1 1 2 1 TwoD 13.

(** ** Properties *)

Section Properties.
Context `{Env}.

(** *** Elementary facts about the context *)

Lemma is_nullptr_false (data : voidptr) : data <> nullptr -> is_nullptr data = false.
Proof. destruct data; [reflexivity | congruence]. Qed.

Lemma bound_issue c ctx : bound (issue c ctx) = bound ctx.
Proof. reflexivity. Qed.

Lemma calls_issue c ctx : calls (issue c ctx) = calls ctx ++ [c].
Proof. reflexivity. Qed.

Lemma bound_bindTexture target id ctx :
  bound (bindTexture target id ctx) = <[target := id]> (bound ctx).
Proof. reflexivity. Qed.

Lemma bind_then_unbind target id (m : gmap N N) ctx' :
  bound ctx' = <[target := id]> m ->
  bound (bindTexture target 0 ctx') = <[target := 0]> m.
Proof.
  intros Hb. rewrite bound_bindTexture, Hb. apply insert_insert_eq.
Qed.

Lemma last_call_bindTexture target id ctx :
  last (calls (bindTexture target id ctx)) = Some (BindTexture target id).
Proof. cbn [bindTexture calls]. apply last_snoc. Qed.

Lemma boundTo_unbound (m : gmap N N) target ctx :
  bound ctx = <[target := 0]> m -> boundTo ctx target = 0.
Proof. intros Hb. unfold boundTo. rewrite Hb, lookup_insert_eq. reflexivity. Qed.

(** *** Shape of a per-dimension upload *)

(** Either the range is rejected and nothing is issued, or exactly one
    transfer call is issued, followed by the error poll. *)
Lemma routine_shape (r : UploadRoutine) t target range data ctx :
  (isOk (validateRange t range) = false /\
   run_routine r t target range data ctx = (validateRange t range, ctx))
  \/
  (isOk (validateRange t range) = true /\
   exists c,
     run_routine r t target range data ctx
       = (glGetError (calls ctx ++ [c]), issue GetError (issue c ctx)) /\
     isImageReplace c
       = isValidForTexImage t range && negb (supportsTexStorage t ctx) /\
     isSubImageReplace c = negb (isImageReplace c) /\
     transferData c = Some data /\
     isCompressedTransfer c
       = negb (is_nullptr data || negb (isCompressed (getFormat t)))).
Proof.
  destruct (isOk (validateRange t range)) eqn:Hv; [right | left]; split; trivial.
  - destruct r; cbn [run_routine];
      unfold upload1D, upload1DArray, upload2D, upload2DArray, upload3D;
      rewrite Hv; cbn [negb];
      destruct (isValidForTexImage t range && negb (supportsTexStorage t ctx));
      destruct (is_nullptr data || negb (isCompressed (getFormat t)));
      (eexists; split; [reflexivity | repeat split]).
  - destruct r; cbn [run_routine];
      unfold upload1D, upload1DArray, upload2D, upload2DArray, upload3D;
      rewrite Hv; reflexivity.
Qed.

Lemma routine_bound (r : UploadRoutine) t target range data ctx :
  bound (snd (run_routine r t target range data ctx)) = bound ctx.
Proof.
  destruct (routine_shape r t target range data ctx)
    as [[_ ->] | [_ (c & -> & _)]]; reflexivity.
Qed.

Lemma upload2D_bound t target range data ctx :
  bound (snd (upload2D t target range data ctx)) = bound ctx.
Proof. apply (routine_bound Upload2D). Qed.

Lemma upload_faces_bound t targets range data ctx :
  bound (snd (upload_faces t targets range data ctx)) = bound ctx.
Proof.
  revert ctx. induction targets as [| tg rest IH]; intros ctx; [reflexivity |].
  cbn [upload_faces].
  pose proof (upload2D_bound t tg range data ctx) as Hb.
  destruct (upload2D t tg range data ctx) as [res ctx1]. cbn [snd] in Hb.
  destruct (isOk res); cbn [negb snd].
  - rewrite IH. exact Hb.
  - exact Hb.
Qed.

Lemma upload_target_bound t target range data bytesPerRow ctx :
  bound (snd (upload_target t target range data bytesPerRow ctx)) = bound ctx.
Proof.
  unfold upload_target.
  destruct (1 <? numMipLevels range); [reflexivity |].
  set (ctx1 := pixelStorei _ _ ctx).
  assert (Hb1 : bound ctx1 = bound ctx) by reflexivity.
  destruct (type_ t); try reflexivity.
  - etransitivity; [apply (routine_bound Upload2D) | exact Hb1].
  - destruct (hasFeature _ _); cbn [negb]; [| exact Hb1].
    etransitivity; [apply (routine_bound Upload2DArray) | exact Hb1].
  - destruct (hasFeature _ _); cbn [negb]; [| exact Hb1].
    etransitivity; [apply (routine_bound Upload3D) | exact Hb1].
  - rewrite upload_faces_bound. exact Hb1.
Qed.

Lemma initializeWithUpload_loop_bound n i t target ctx :
  bound (snd (initializeWithUpload_loop n i t target ctx)) = bound ctx.
Proof.
  revert i ctx. induction n as [| n IH]; intros i ctx; [reflexivity |].
  cbn [initializeWithUpload_loop].
  pose proof (upload_target_bound t target (getFullRange t i 1) nullptr 0 ctx) as Hb.
  destruct (upload_target t target (getFullRange t i 1) nullptr 0 ctx) as [res ctx1].
  cbn [snd] in Hb.
  destruct (isOk res); cbn [negb snd].
  - rewrite IH. exact Hb.
  - exact Hb.
Qed.

Lemma initializeWithTexStorage_bound t ctx :
  bound (snd (initializeWithTexStorage t ctx)) = bound ctx.
Proof. unfold initializeWithTexStorage. destruct (getType t); reflexivity. Qed.

Lemma swapTextureChannelsForFormat_bound ctx target f :
  bound (swapTextureChannelsForFormat ctx target f) = bound ctx.
Proof.
  unfold swapTextureChannelsForFormat.
  destruct (_ && _); [| reflexivity]. destruct (f =? A_UNorm8); reflexivity.
Qed.

(** *** Entry points issued by an upload *)

Lemma extends_refl ctx : extends ctx ctx [].
Proof. split; [symmetry; apply app_nil_r | reflexivity]. Qed.

Lemma extends_trans a b c l1 l2 :
  extends a b l1 -> extends b c l2 -> extends a c (l1 ++ l2).
Proof.
  intros [Hc1 Hf1] [Hc2 Hf2]. split.
  - rewrite Hc2, Hc1. symmetry. apply app_assoc.
  - congruence.
Qed.

Lemma supportsTexStorage_features t ctx ctx' :
  deviceFeatures ctx' = deviceFeatures ctx ->
  supportsTexStorage t ctx' = supportsTexStorage t ctx.
Proof. intros Hf. unfold supportsTexStorage. rewrite Hf. reflexivity. Qed.

Lemma follows_selection_features t ctx ctx' range c :
  deviceFeatures ctx' = deviceFeatures ctx ->
  follows_selection t ctx' range c -> follows_selection t ctx range c.
Proof.
  intros Hf Hsel Htr. rewrite <- (supportsTexStorage_features _ _ _ Hf).
  exact (Hsel Htr).
Qed.

Lemma follows_selection_other t ctx range c :
  isTransfer c = false -> follows_selection t ctx range c.
Proof. intros Hc Htr. congruence. Qed.

Lemma routine_extends (r : UploadRoutine) t target range data ctx :
  exists l,
    extends ctx (snd (run_routine r t target range data ctx)) l /\
    Forall (follows_selection t ctx range) l.
Proof.
  destruct (routine_shape r t target range data ctx)
    as [[_ ->] | [_ (c & -> & Himg & Hsub & _)]]; cbn [snd].
  - exists []. split; [apply extends_refl | constructor].
  - exists [c; GetError]. split.
    + split; [| reflexivity]. rewrite !calls_issue, <- app_assoc. reflexivity.
    + constructor; [intros _; split; assumption |].
      constructor; [| constructor].
      apply follows_selection_other. reflexivity.
Qed.

Lemma upload_faces_extends t targets range data ctx :
  exists l,
    extends ctx (snd (upload_faces t targets range data ctx)) l /\
    Forall (follows_selection t ctx range) l.
Proof.
  revert ctx. induction targets as [| tg rest IH]; intros ctx.
  - exists []. split; [apply extends_refl | constructor].
  - cbn [upload_faces].
    destruct (routine_extends Upload2D t tg range data ctx) as (l1 & H1 & Hall1).
    cbn [run_routine] in H1.
    destruct (upload2D t tg range data ctx) as [res ctx1]. cbn [snd] in H1.
    destruct (isOk res); cbn [negb snd].
    + destruct (IH ctx1) as (l2 & H2 & Hall2).
      exists (l1 ++ l2). split; [eapply extends_trans; eassumption |].
      apply Forall_app. split; [exact Hall1 |].
      eapply Forall_impl; [exact Hall2 |].
      intros c Hc. eapply follows_selection_features; [| exact Hc]. apply H1.
    + exists l1. split; assumption.
Qed.

Lemma upload_target_extends t target range data bytesPerRow ctx :
  exists l,
    extends ctx (snd (upload_target t target range data bytesPerRow ctx)) l /\
    Forall (follows_selection t ctx range) l.
Proof.
  unfold upload_target.
  destruct (1 <? numMipLevels range);
    [exists []; split; [apply extends_refl | constructor] |].
  set (p := PixelStorei GL_UNPACK_ALIGNMENT
               (getAlignment t bytesPerRow (mipLevel range))).
  change (pixelStorei _ _ ctx) with (issue p ctx).
  assert (H1 : extends ctx (issue p ctx) [p]) by (split; reflexivity).
  assert (Hp : Forall (follows_selection t ctx range) [p])
    by (constructor; [apply follows_selection_other; reflexivity | constructor]).
  assert (Hstop : forall res : Result,
             exists l, extends ctx (snd (res, issue p ctx)) l /\
                       Forall (follows_selection t ctx range) l)
    by (intros res; exists [p]; split; assumption).
  assert (Hgo : forall out : Result * IContext,
             (exists l, extends (issue p ctx) (snd out) l /\
                        Forall (follows_selection t (issue p ctx) range) l) ->
             exists l, extends ctx (snd out) l /\
                       Forall (follows_selection t ctx range) l).
  { intros out (l & Hext & Hall). exists ([p] ++ l). split.
    - eapply extends_trans; eassumption.
    - apply Forall_app. split; [exact Hp |].
      eapply Forall_impl; [exact Hall |].
      intros c Hc. eapply follows_selection_features; [| exact Hc]. apply H1. }
  destruct (type_ t); try apply Hstop.
  - apply Hgo, (routine_extends Upload2D).
  - destruct (hasFeature _ _); cbn [negb]; [| apply Hstop].
    apply Hgo, (routine_extends Upload2DArray).
  - destruct (hasFeature _ _); cbn [negb]; [| apply Hstop].
    apply Hgo, (routine_extends Upload3D).
  - apply Hgo, upload_faces_extends.
Qed.

(** *** Path selection *)

(** C1.  Each of the five per-dimension upload routines, on a range that
    passes validation, issues exactly one transfer call.  That call is on the
    image-replace path if and only if the range is full-extent
    ([isValidForTexImage]) and the resource does not use immutable storage
    ([supportsTexStorage] is false, the test by which [initialize] chose the
    Mutable strategy); it is on the sub-image-replace path for every partial
    range and for every range of a resource with immutable storage. *)
Theorem upload_path_selection (r : UploadRoutine) t target range data ctx :
  isOk (validateRange t range) = true ->
  exists c,
    calls (snd (run_routine r t target range data ctx))
      = calls ctx ++ [c; GetError] /\
    isTransfer c = true /\
    (isImageReplace c = true <->
       isValidForTexImage t range = true /\ supportsTexStorage t ctx = false) /\
    (isSubImageReplace c = true <->
       isValidForTexImage t range = false \/ supportsTexStorage t ctx = true).
Proof.
  intros Hv.
  destruct (routine_shape r t target range data ctx)
    as [[Hno _] | [_ (c & Hrun & Himg & Hsub & _)]]; [congruence |].
  exists c. rewrite Hrun. cbn [snd]. rewrite !calls_issue, <- app_assoc.
  split; [reflexivity |].
  unfold isTransfer. rewrite Hsub, Himg.
  destruct (isValidForTexImage t range), (supportsTexStorage t ctx);
    cbn; intuition congruence.
Qed.

(** The same rule read on the public entry: whatever [upload] issues, on any
    resource type and with any outcome, each transfer call in it (one for 2D,
    2D-array and 3D, up to six for Cube) is on the path the rule selects. *)
Lemma upload_transfers_follow_selection t range data bytesPerRow ctx :
  exists l,
    extends ctx (snd (upload t range data bytesPerRow ctx)) l /\
    Forall (follows_selection t ctx range) l.
Proof.
  unfold upload.
  destruct (is_nullptr data); [exists []; split; [apply extends_refl | constructor] |].
  destruct (getTarget t =? 0); [exists []; split; [apply extends_refl | constructor] |].
  set (ctx1 := bindTexture (getTarget t) (getId t) ctx).
  assert (H1 : extends ctx ctx1 [BindTexture (getTarget t) (getId t)])
    by (split; reflexivity).
  destruct (upload_target_extends t (getTarget t) range data bytesPerRow ctx1)
    as (l & Hext & Hall).
  destruct (upload_target _ _ _ _ _ ctx1) as [res ctx2]. cbn [snd] in *.
  exists ([BindTexture (getTarget t) (getId t)] ++ l ++ [BindTexture (getTarget t) 0]).
  split.
  - eapply extends_trans; [exact H1 |].
    eapply extends_trans; [exact Hext |]. split; reflexivity.
  - assert (Hb : forall id,
               Forall (follows_selection t ctx range) [BindTexture (getTarget t) id])
      by (intros id; constructor;
          [apply follows_selection_other; reflexivity | constructor]).
    apply Forall_app. split; [apply Hb |].
    apply Forall_app. split; [| apply Hb].
    eapply Forall_impl; [exact Hall |].
    intros c Hc. eapply follows_selection_features; [| exact Hc]. apply H1.
Qed.

(** *** Multi-level ranges *)

(** C2 (amended).  For a range with more than one mip level, the public
    upload returns Unimplemented whenever the data pointer is not null and the
    resource has a target; the resource is bound for the attempt and unbound
    again, and nothing else is issued.  The overload that takes the target
    returns Unimplemented for every data pointer, null included, and issues
    nothing. *)
Theorem upload_multi_level_unimplemented t range data bytesPerRow ctx :
  1 < numMipLevels range ->
  data <> nullptr ->
  getTarget t <> 0 ->
  code (fst (upload t range data bytesPerRow ctx)) = Unimplemented /\
  snd (upload t range data bytesPerRow ctx)
    = bindTexture (getTarget t) 0 (bindTexture (getTarget t) (getId t) ctx) /\
  (forall target data' ctx',
     code (fst (upload_target t target range data' bytesPerRow ctx'))
       = Unimplemented /\
     snd (upload_target t target range data' bytesPerRow ctx') = ctx').
Proof.
  intros Hmips Hdata Htarget.
  apply N.ltb_lt in Hmips. apply N.eqb_neq in Htarget.
  unfold upload. rewrite (is_nullptr_false _ Hdata), Htarget.
  unfold upload_target. rewrite Hmips. cbn [fst snd code].
  repeat split.
Qed.

(** *** Null data *)

Lemma allocates_only_features t ctx ctx' range c :
  deviceFeatures ctx' = deviceFeatures ctx ->
  allocates_only t ctx' range c -> allocates_only t ctx range c.
Proof.
  intros Hf (Htr & Hd & Hcomp & Himg & Hsub).
  rewrite (supportsTexStorage_features _ _ _ Hf) in Himg.
  repeat split; assumption.
Qed.

(** A per-dimension routine handed a null pointer on an accepted range. *)
Lemma routine_null (r : UploadRoutine) t target range ctx :
  isOk (validateRange t range) = true ->
  exists c,
    run_routine r t target range nullptr ctx
      = (glGetError (calls ctx ++ [c]), issue GetError (issue c ctx)) /\
    allocates_only t ctx range c.
Proof.
  intros Hv.
  destruct (routine_shape r t target range nullptr ctx)
    as [[Hno _] | [_ (c & Hrun & Himg & Hsub & Hdata & Hcomp)]]; [congruence |].
  exists c. split; [exact Hrun |].
  unfold allocates_only, isTransfer. rewrite Hsub.
  repeat split; try assumption.
  destruct (isImageReplace c); reflexivity.
Qed.

Lemma upload_faces_null t targets range ctx :
  isOk (validateRange t range) = true ->
  targets <> [] ->
  exists cs,
    cs <> [] /\
    calls (snd (upload_faces t targets range nullptr ctx))
      = calls ctx ++ polled cs /\
    deviceFeatures (snd (upload_faces t targets range nullptr ctx))
      = deviceFeatures ctx /\
    Forall (allocates_only t ctx range) cs.
Proof.
  intros Hv. revert ctx.
  induction targets as [| tg rest IH]; intros ctx Hne; [congruence |].
  cbn [upload_faces].
  destruct (routine_null Upload2D t tg range ctx Hv) as (c & Hrun & Hc).
  cbn [run_routine] in Hrun. rewrite Hrun.
  destruct (isOk (glGetError (calls ctx ++ [c]))); cbn [negb].
  - destruct rest as [| tg' rest'].
    + exists [c]. cbn [upload_faces snd polled flat_map app issue calls
                         deviceFeatures].
      rewrite <- !app_assoc.
      repeat split; [discriminate | constructor; [exact Hc | constructor]].
    + destruct (IH (issue GetError (issue c ctx))) as (cs & _ & Hcalls & Hf & Hall);
        [discriminate |].
      exists (c :: cs). split; [discriminate |]. split; [| split].
      * rewrite Hcalls. cbn [polled flat_map app issue calls].
        rewrite <- !app_assoc. reflexivity.
      * rewrite Hf. reflexivity.
      * constructor; [exact Hc |].
        eapply Forall_impl; [exact Hall |].
        intros c' Hc'. eapply allocates_only_features; [| exact Hc'].
        reflexivity.
  - exists [c]. cbn [snd polled flat_map app issue calls deviceFeatures].
    rewrite <- !app_assoc.
    repeat split; [discriminate | constructor; [exact Hc | constructor]].
Qed.

Lemma kCubeFaceTargets_not_nil : kCubeFaceTargets <> [].
Proof. discriminate. Qed.

(** The target-taking overload handed a null pointer: after the unpack
    alignment, the routine of the resource's dimensionality issues its
    storage-only transfers, one for 2D, 2D-array and 3D, one per face reached
    for Cube. *)
Lemma upload_target_null t target range bytesPerRow ctx :
  numMipLevels range <= 1 ->
  dimension_supported t ctx ->
  isOk (validateRange t range) = true ->
  exists cs,
    cs <> [] /\
    calls (snd (upload_target t target range nullptr bytesPerRow ctx))
      = calls ctx
        ++ PixelStorei GL_UNPACK_ALIGNMENT
             (getAlignment t bytesPerRow (mipLevel range))
           :: polled cs /\
    deviceFeatures (snd (upload_target t target range nullptr bytesPerRow ctx))
      = deviceFeatures ctx /\
    Forall (allocates_only t ctx range) cs /\
    (type_ t <> Cube -> length cs = 1%nat).
Proof.
  intros Hmips (Hty & H2a & H3d) Hv.
  unfold upload_target.
  destruct (N.ltb_spec 1 (numMipLevels range)) as [Hlt | _]; [lia |].
  set (p := PixelStorei GL_UNPACK_ALIGNMENT
               (getAlignment t bytesPerRow (mipLevel range))).
  change (pixelStorei _ _ ctx) with (issue p ctx).
  assert (Hone : forall r : UploadRoutine,
             exists cs,
               cs <> [] /\
               calls (snd (run_routine r t target range nullptr (issue p ctx)))
                 = calls ctx ++ p :: polled cs /\
               deviceFeatures
                 (snd (run_routine r t target range nullptr (issue p ctx)))
                 = deviceFeatures ctx /\
               Forall (allocates_only t ctx range) cs /\
               (type_ t <> Cube -> length cs = 1%nat)).
  { intros r.
    destruct (routine_null r t target range (issue p ctx) Hv) as (c & -> & Hc).
    exists [c]. cbn [snd polled flat_map app issue calls deviceFeatures].
    rewrite <- !app_assoc.
    repeat split; [discriminate |].
    constructor; [| constructor].
    eapply allocates_only_features; [| exact Hc]. reflexivity. }
  cbn [In] in Hty.
  destruct Hty as [Hk | [Hk | [Hk | [Hk | []]]]]; rewrite <- Hk in *.
  - apply (Hone Upload2D).
  - change (deviceFeatures (issue p ctx)) with (deviceFeatures ctx).
    rewrite (H2a eq_refl). apply (Hone Upload2DArray).
  - change (deviceFeatures (issue p ctx)) with (deviceFeatures ctx).
    rewrite (H3d eq_refl). apply (Hone Upload3D).
  - destruct (upload_faces_null t kCubeFaceTargets range (issue p ctx) Hv
                kCubeFaceTargets_not_nil) as (cs & Hne & Hcalls & Hf & Hall).
    exists cs. split; [exact Hne |]. split; [| split; [| split]].
    + rewrite Hcalls, calls_issue, <- app_assoc. reflexivity.
    + rewrite Hf. reflexivity.
    + eapply Forall_impl; [exact Hall |].
      intros c Hc. eapply allocates_only_features; [| exact Hc]. reflexivity.
    + congruence.
Qed.

Lemma upload_faces_ok t targets range data ctx :
  (forall log, isOk (glGetError log) = true) ->
  isOk (validateRange t range) = true ->
  isOk (fst (upload_faces t targets range data ctx)) = true.
Proof.
  intros Hdrv Hv. revert ctx.
  induction targets as [| tg rest IH]; intros ctx; [reflexivity |].
  cbn [upload_faces].
  destruct (routine_shape Upload2D t tg range data ctx)
    as [[Hno _] | [_ (c & Hrun & _)]]; [congruence |].
  cbn [run_routine] in Hrun. rewrite Hrun, Hdrv. cbn [negb]. apply IH.
Qed.

Lemma upload_target_ok t target range data bytesPerRow ctx :
  (forall log, isOk (glGetError log) = true) ->
  numMipLevels range <= 1 ->
  dimension_supported t ctx ->
  isOk (validateRange t range) = true ->
  isOk (fst (upload_target t target range data bytesPerRow ctx)) = true.
Proof.
  intros Hdrv Hmips (Hty & H2a & H3d) Hv.
  unfold upload_target.
  destruct (N.ltb_spec 1 (numMipLevels range)) as [Hlt | _]; [lia |].
  set (ctx1 := pixelStorei _ _ ctx).
  assert (Hone : forall r : UploadRoutine,
             isOk (fst (run_routine r t target range data ctx1)) = true).
  { intros r.
    destruct (routine_shape r t target range data ctx1)
      as [[Hno _] | [_ (c & -> & _)]]; [congruence |]. apply Hdrv. }
  cbn [In] in Hty.
  destruct Hty as [Hk | [Hk | [Hk | [Hk | []]]]]; rewrite <- Hk in *.
  - apply (Hone Upload2D).
  - change (deviceFeatures ctx1) with (deviceFeatures ctx).
    rewrite (H2a eq_refl). apply (Hone Upload2DArray).
  - change (deviceFeatures ctx1) with (deviceFeatures ctx).
    rewrite (H3d eq_refl). apply (Hone Upload3D).
  - apply upload_faces_ok; assumption.
Qed.

(** C3 (amended).  The public upload with a null data pointer returns Ok at
    once, for every range, and leaves the context exactly as it found it: no
    backend call is issued.  In particular an upload with data followed by an
    upload with a null pointer has the second call return Ok and change
    nothing; and both calls return Ok when the first is accepted (a resource
    with a target and a supported dimensionality, a single-level range that
    [validateRange] accepts) and the driver reports no error.  The
    allocate-only operation is what the target-taking overload does with a
    null pointer: on such a range it sets the unpack alignment and the routine
    of the resource's dimensionality issues plain (never compressed) transfer
    calls of the selected path whose data argument is the null pointer, each
    followed by the error poll; exactly one for 2D, 2D-array and 3D, one per
    face reached for Cube. *)
Theorem upload_null_data t range bytesPerRow ctx :
  upload t range nullptr bytesPerRow ctx = (Result_default, ctx) /\
  (forall range1 data1 bytesPerRow1,
     upload t range nullptr bytesPerRow
       (snd (upload t range1 data1 bytesPerRow1 ctx))
     = (Result_default, snd (upload t range1 data1 bytesPerRow1 ctx))) /\
  (forall data,
     data <> nullptr ->
     getTarget t <> 0 ->
     numMipLevels range <= 1 ->
     dimension_supported t ctx ->
     isOk (validateRange t range) = true ->
     (forall log, isOk (glGetError log) = true) ->
     isOk (fst (upload t range data bytesPerRow ctx)) = true /\
     isOk (fst (upload t range nullptr bytesPerRow
                  (snd (upload t range data bytesPerRow ctx)))) = true) /\
  (forall target,
     numMipLevels range <= 1 ->
     dimension_supported t ctx ->
     isOk (validateRange t range) = true ->
     exists cs,
       cs <> [] /\
       calls (snd (upload_target t target range nullptr bytesPerRow ctx))
         = calls ctx
           ++ PixelStorei GL_UNPACK_ALIGNMENT
                (getAlignment t bytesPerRow (mipLevel range))
              :: polled cs /\
       Forall (allocates_only t ctx range) cs /\
       (type_ t <> Cube -> length cs = 1%nat)).
Proof.
  split; [reflexivity |]. split; [reflexivity |]. split.
  - intros data Hdata Htg Hmips Hsup Hv Hdrv. split; [| reflexivity].
    apply N.eqb_neq in Htg.
    unfold upload. rewrite (is_nullptr_false _ Hdata), Htg.
    pose proof (upload_target_ok t (getTarget t) range data bytesPerRow
                  (bindTexture (getTarget t) (getId t) ctx) Hdrv Hmips Hsup Hv)
      as Hok.
    destruct (upload_target _ _ _ _ _ _) as [res ctx2]. exact Hok.
  - intros target Hmips Hsup Hv.
    destruct (upload_target_null t target range bytesPerRow ctx Hmips Hsup Hv)
      as (cs & Hne & Hcalls & _ & Hall & Hlen).
    exists cs. repeat split; assumption.
Qed.

(** *** Face uploads *)

Lemma uploadCube_wrong_target t range face data bytesPerRow ctx :
  data <> nullptr ->
  numMipLevels range <= 1 ->
  getTarget t <> GL_TEXTURE_CUBE_MAP ->
  uploadCube t range face data bytesPerRow ctx
    = (mkResult InvalidOperation "upload2D can only upload to 2D textures", ctx).
Proof.
  intros Hdata Hmips Htarget. unfold uploadCube.
  rewrite (is_nullptr_false _ Hdata).
  destruct (N.ltb_spec 1 (numMipLevels range)) as [Hlt | _]; [lia |].
  apply N.eqb_neq in Htarget. rewrite Htarget. reflexivity.
Qed.

(** C4.  On a resource whose dimensionality is not Cube, [uploadCube] with
    data and a single mip level returns InvalidOperation and hands back the
    context untouched: nothing is bound, nothing is transferred, and the
    binding table is the one it was given.  The code reads the dimensionality
    off the resource's GL target; the target is the one [toGLTarget] assigned
    to the resource's type, and [toGLTarget] keeps the cube-map target for
    Cube. *)
Theorem uploadCube_not_cube t range face data bytesPerRow ctx samples :
  getTarget t = toGLTarget (getType t) samples ->
  (forall ty n, toGLTarget ty n = GL_TEXTURE_CUBE_MAP -> ty = Cube) ->
  getType t <> Cube ->
  data <> nullptr ->
  numMipLevels range = 1 ->
  code (fst (uploadCube t range face data bytesPerRow ctx)) = InvalidOperation /\
  snd (uploadCube t range face data bytesPerRow ctx) = ctx /\
  bound (snd (uploadCube t range face data bytesPerRow ctx)) = bound ctx.
Proof.
  intros Htg Htab Hty Hdata Hmips.
  rewrite uploadCube_wrong_target; cbn [fst snd code]; auto.
  - lia.
  - intros Heq. apply Hty, (Htab _ samples). congruence.
Qed.

(** *** The persistent handle *)

Lemma getTextureId_cached t ctx :
  textureHandle_ t <> 0 -> getTextureId t ctx = (textureHandle_ t, t, ctx).
Proof.
  intros Hh. unfold getTextureId.
  apply N.eqb_neq in Hh. rewrite Hh. reflexivity.
Qed.

Lemma getTextureId_repeat_cached n t ctx :
  textureHandle_ t <> 0 ->
  getTextureId_repeat n t ctx = (repeat (textureHandle_ t) n, t, ctx).
Proof.
  intros Hh. induction n as [| n IH]; [reflexivity |].
  cbn [getTextureId_repeat repeat].
  rewrite (getTextureId_cached _ _ Hh), IH. reflexivity.
Qed.

(** C5 (amended).  On a resource whose handle is not yet resolved, the first
    call of [getTextureId] asks the backend for the handle once and makes it
    resident once.  When the backend returns a non-zero handle, which is what
    the code asserts, each of the [n] calls that follow returns that same
    value and leaves the context as the first call left it.  When the backend
    returns 0, nothing is cached: the object is still unresolved and the next
    call asks the backend and makes resident again. *)
Theorem getTextureId_resolves_once t ctx n :
  textureHandle_ t = 0 ->
  let h := glGetTextureHandle (calls ctx) (getId t) in
  let t1 := set_textureHandle h t in
  let ctx1 :=
    issue (MakeTextureHandleResident h) (issue (GetTextureHandle (getId t)) ctx) in
  getTextureId t ctx = (h, t1, ctx1) /\
  calls ctx1
    = calls ctx ++ [GetTextureHandle (getId t); MakeTextureHandleResident h] /\
  (h <> 0 ->
   getTextureId_repeat n t1 ctx1 = (repeat h n, t1, ctx1) /\
   getTextureId_repeat (S n) t ctx = (repeat h (S n), t1, ctx1)) /\
  (h = 0 ->
   textureHandle_ t1 = 0 /\
   calls (snd (getTextureId t1 ctx1))
     = calls ctx1
       ++ [GetTextureHandle (getId t);
           MakeTextureHandleResident
             (glGetTextureHandle (calls ctx1) (getId t))]).
Proof.
  intros Hfresh h t1 ctx1.
  assert (Hfirst : getTextureId t ctx = (h, t1, ctx1)).
  { unfold getTextureId. rewrite Hfresh. reflexivity. }
  split; [exact Hfirst |]. split; [| split].
  - subst ctx1. rewrite !calls_issue, <- app_assoc. reflexivity.
  - intros Hnz.
    assert (Hrest : getTextureId_repeat n t1 ctx1 = (repeat h n, t1, ctx1)).
    { apply (getTextureId_repeat_cached n t1 ctx1). exact Hnz. }
    split; [exact Hrest |].
    cbn [getTextureId_repeat repeat]. rewrite Hfirst, Hrest. reflexivity.
  - intros Hz. split; [exact Hz |].
    unfold getTextureId.
    change (textureHandle_ t1) with h. rewrite Hz. cbn [N.eqb snd].
    change (getId t1) with (getId t).
    rewrite !calls_issue, <- app_assoc. reflexivity.
Qed.

(** *** Destruction *)

(** C6.  The destructor of a resource with a backend object and a resolved
    handle releases the handle and then deletes the object, in that order and
    with nothing else; with a backend object and no handle it only deletes the
    object; with no backend object (id 0) it issues nothing and the context is
    unchanged. *)
Theorem destructor_order t ctx :
  (getId t <> 0 -> textureHandle_ t <> 0 ->
   calls (TextureBuffer_destructor t ctx)
     = calls ctx ++ [MakeTextureHandleNonResident (textureHandle_ t);
                     DeleteTextures [getId t]]) /\
  (getId t <> 0 -> textureHandle_ t = 0 ->
   calls (TextureBuffer_destructor t ctx)
     = calls ctx ++ [DeleteTextures [getId t]]) /\
  (getId t = 0 -> TextureBuffer_destructor t ctx = ctx).
Proof.
  unfold TextureBuffer_destructor. repeat split.
  - intros Hid Hh. apply N.eqb_neq in Hid, Hh. rewrite Hid, Hh. cbn [negb].
    rewrite !calls_issue, <- app_assoc. reflexivity.
  - intros Hid Hh. apply N.eqb_neq in Hid. rewrite Hid, Hh. reflexivity.
  - intros Hid. rewrite Hid. reflexivity.
Qed.

(** *** Mip-chain initialization *)






(** *** Binding discipline *)

Lemma unbound_after_intro t ctx id ctx' :
  bound ctx' = <[getTarget t := id]> (bound ctx) ->
  unbound_after t ctx (bindTexture (getTarget t) 0 ctx').
Proof.
  intros Hb. pose proof (bind_then_unbind _ _ _ _ Hb) as Hu.
  split; [exact Hu |]. split.
  - eapply boundTo_unbound. exact Hu.
  - apply last_call_bindTexture.
Qed.

(** C8.  [upload], [uploadCube] and [initialize] either return before issuing
    anything, with the context exactly as they found it, or they return with
    the resource's target unbound, whatever result they return: a call that
    bound the resource never leaves it bound.  For [initialize] this uses that
    the inherited [setMaxMipLevel] does not rebind. *)
Theorem binding_restored t ctx :
  (forall range data bytesPerRow,
     let out := snd (upload t range data bytesPerRow ctx) in
     out = ctx \/ unbound_after t ctx out) /\
  (forall range face data bytesPerRow,
     let out := snd (uploadCube t range face data bytesPerRow ctx) in
     out = ctx \/ unbound_after t ctx out) /\
  ((forall t' c, bound (setMaxMipLevel t' c) = bound c) ->
   let out := snd (initialize t ctx) in
   out = ctx \/ unbound_after t ctx out).
Proof.
  split; [| split].
  - intros range data bytesPerRow. cbv zeta. unfold upload.
    destruct (is_nullptr data); [left; reflexivity |].
    destruct (getTarget t =? 0); [left; reflexivity |]. right.
    pose proof (upload_target_bound t (getTarget t) range data bytesPerRow
                  (bindTexture (getTarget t) (getId t) ctx)) as Hb.
    destruct (upload_target _ _ _ _ _ _) as [res ctx2]. cbn [snd] in *.
    eapply unbound_after_intro. rewrite Hb. reflexivity.
  - intros range face data bytesPerRow. cbv zeta. unfold uploadCube.
    destruct (is_nullptr data); [left; reflexivity |].
    destruct (1 <? numMipLevels range); [left; reflexivity |].
    destruct (getTarget t =? GL_TEXTURE_CUBE_MAP);
      cbn [negb]; [| left; reflexivity]. right.
    match goal with
    | |- context [upload2D t ?tg range data ?c] =>
        pose proof (upload2D_bound t tg range data c) as Hb;
        destruct (upload2D t tg range data c) as [res ctx2]
    end.
    cbn [snd] in *. eapply unbound_after_intro. rewrite Hb. reflexivity.
  - intros Hmax. cbv zeta. unfold initialize.
    destruct (getTarget t =? 0); [left; reflexivity |]. right.
    match goal with
    | |- context [canInitialize t ?c] =>
        assert (Hp : bound c = <[getTarget t := getId t]> (bound ctx));
        [| generalize dependent c; intros ctxP Hp]
    end.
    { destruct (negb (isCompressed (getFormat t)));
        rewrite ?swapTextureChannelsForFormat_bound;
        destruct (getNumMipLevels t =? 1);
        unfold texParameteri; rewrite ?bound_issue, Hmax; reflexivity. }
    assert (Hi : forall ri : Result * IContext,
               bound (snd ri) = bound ctxP ->
               unbound_after t ctx
                 (snd (let '(result, ctxI) := ri in
                       (result, bindTexture (getTarget t) 0 ctxI)))).
    { intros [res ctxI] Hb. cbn [snd] in *.
      eapply unbound_after_intro. rewrite Hb. exact Hp. }
    apply Hi.
    destruct (canInitialize t ctxP); [| reflexivity].
    destruct (supportsTexStorage t ctxP); cbn [negb].
    + apply initializeWithTexStorage_bound.
    + apply initializeWithUpload_loop_bound.
Qed.

(** C9.  On a Cube resource, [uploadCube] with data and a single mip level
    sets the unpack alignment, binds the resource, runs [upload2D] on the
    selected face, unbinds, and returns the default Ok result: the result of
    [upload2D] does not reach the caller, whether it is Ok or not. *)
Theorem uploadCube_discards_inner_result
    t range face data bytesPerRow ctx samples :
  getTarget t = toGLTarget (getType t) samples ->
  toGLTarget Cube samples = GL_TEXTURE_CUBE_MAP ->
  getType t = Cube ->
  data <> nullptr ->
  numMipLevels range = 1 ->
  let inner :=
    upload2D t (nth (face_index face) kCubeFaceTargets 0) range data
      (bindTexture (getTarget t) (getId t)
         (pixelStorei GL_UNPACK_ALIGNMENT
            (getAlignment t bytesPerRow (mipLevel range)) ctx)) in
  uploadCube t range face data bytesPerRow ctx
    = (Result_default, bindTexture (getTarget t) 0 (snd inner)) /\
  isOk (fst (uploadCube t range face data bytesPerRow ctx)) = true.
Proof.
  intros Htg Htab Hty Hdata Hmips inner.
  assert (Hcube : (getTarget t =? GL_TEXTURE_CUBE_MAP) = true).
  { apply N.eqb_eq. rewrite Htg, Hty. exact Htab. }
  assert (Hrun : uploadCube t range face data bytesPerRow ctx
                 = (Result_default, bindTexture (getTarget t) 0 (snd inner))).
  { unfold uploadCube. rewrite (is_nullptr_false _ Hdata), Hmips, Hcube.
    cbn [N.ltb N.compare Pos.compare Pos.compare_cont negb].
    subst inner. destruct (upload2D _ _ _ _ _). reflexivity. }
  split; [exact Hrun |]. rewrite Hrun. reflexivity.
Qed.

(** *** The usage gate of [create] *)

Lemma land_lor_eq_0 (u a b : N) :
  N.land u (N.lor a b) = 0 <-> N.land u a = 0 /\ N.land u b = 0.
Proof.
  rewrite (N.land_comm u (N.lor a b)), N.land_lor_distr_l, N.lor_eq_0_iff.
  rewrite (N.land_comm a u), (N.land_comm b u). reflexivity.
Qed.

(** C10.  Once the inherited [create] has accepted the descriptor, [create]
    returns Unsupported with the message "invalid usage!" for every 2D
    descriptor with one mip level whose usage has neither the Sampled nor the
    Storage bit, and it does so in the context the inherited [create] left: no
    texture object is generated.  A descriptor with the Sampled or the Storage
    bit, or of another type, or with more than one mip level, passes the gate:
    the outcome is the one of [createTexture]. *)
Theorem create_usage_gate desc hasStorageAlready t ctx r t1 ctx1 :
  Super_create desc hasStorageAlready t ctx = (r, t1, ctx1) ->
  isOk r = true ->
  (desc_type desc = TwoD ->
   desc_numMipLevels desc = 1 ->
   N.land (desc_usage desc) Sampled = 0 ->
   N.land (desc_usage desc) Storage = 0 ->
   create desc hasStorageAlready t ctx
     = (mkResult Unsupported "invalid usage!", t1, ctx1)) /\
  (N.land (desc_usage desc) Sampled <> 0 \/
   N.land (desc_usage desc) Storage <> 0 \/
   desc_type desc <> TwoD \/
   1 < desc_numMipLevels desc ->
   create desc hasStorageAlready t ctx = createTexture desc t1 ctx1).
Proof.
  intros Hsuper Hok. unfold create. rewrite Hsuper, Hok. split.
  - intros Hty Hmips Hs Hst.
    assert (Hboth : N.land (desc_usage desc) (N.lor Sampled Storage) = 0)
      by (apply land_lor_eq_0; split; assumption).
    rewrite Hboth, Hty, Hmips. reflexivity.
  - intros Hpass.
    destruct (N.eqb_spec (N.land (desc_usage desc) (N.lor Sampled Storage)) 0)
      as [Hz | Hnz]; cbn [negb orb]; [| reflexivity].
    apply land_lor_eq_0 in Hz. destruct Hz as [Hs Hst].
    destruct Hpass as [Hp | [Hp | [Hp | Hp]]]; try contradiction.
    + rewrite bool_decide_eq_false_2 by exact Hp. reflexivity.
    + apply N.ltb_lt in Hp. rewrite Hp.
      destruct (bool_decide _); reflexivity.
Qed.

End Properties.

(** ** The properties on concrete inputs *)

(** The model run on the reference environment: a full-extent upload to a
    mutable texture replaces the image, a partial one updates a region, and a
    full-extent upload to a texture with immutable storage updates a region. *)
Example upload_full_mutable :
  calls (snd (upload (H := E0) refTex2D full4x4 (Some 1) 0 ctx0))
  = [BindTexture 0x0DE1 7; PixelStorei GL_UNPACK_ALIGNMENT 4%Z;
     TexImage2D 0x0DE1 0%Z 0x8058 4%Z 4%Z 0%Z 0x1908 0x1401 (Some 1);
     GetError; BindTexture 0x0DE1 0].
Proof. reflexivity. Qed.

Example upload_partial_mutable :
  calls (snd (upload (H := E0) refTex2D inner2x2 (Some 1) 0 ctx0))
  = [BindTexture 0x0DE1 7; PixelStorei GL_UNPACK_ALIGNMENT 4%Z;
     TexSubImage2D 0x0DE1 0%Z 1%Z 1%Z 2%Z 2%Z 0x1908 0x1401 (Some 1);
     GetError; BindTexture 0x0DE1 0].
Proof. reflexivity. Qed.

Example upload_full_immutable :
  calls (snd (upload (H := E0) refTexStorage2D full4x4 (Some 1) 0 ctx0))
  = [BindTexture 0x0DE1 8; PixelStorei GL_UNPACK_ALIGNMENT 4%Z;
     TexSubImage2D 0x0DE1 0%Z 0%Z 0%Z 4%Z 4%Z 0x1908 0x1401 (Some 1);
     GetError; BindTexture 0x0DE1 0].
Proof. reflexivity. Qed.

(** A three-level mutable texture on a driver that fails at level 1: level 0
    and level 1 are attempted, level 2 is not, and the failure is returned
    after the unbind. *)
Example initialize_stops_at_first_failure :
  initialize (H := refEnv failsAtLevel1 residentHandle)
    (tex4x4 TwoD 7 0x0DE1 1 3) ctx0
  = (mkResult RuntimeError "GL_OUT_OF_MEMORY",
     {| calls :=
          [BindTexture 0x0DE1 7; PixelStorei GL_UNPACK_ALIGNMENT 4%Z;
           TexImage2D 0x0DE1 0%Z 0x8058 4%Z 4%Z 0%Z 0x1908 0x1401 nullptr;
           GetError; PixelStorei GL_UNPACK_ALIGNMENT 4%Z;
           TexImage2D 0x0DE1 1%Z 0x8058 2%Z 2%Z 0%Z 0x1908 0x1401 nullptr;
           GetError; BindTexture 0x0DE1 0];
        bound := <[0x0DE1 := 0]> (<[0x0DE1 := 7]> ∅);
        deviceFeatures := refFeatures 16 |}).
Proof. reflexivity. Qed.

(** The handle cache holds the value 0 for "unresolved": on a driver that
    fails to resolve (handle 0, the case the code asserts against), the second
    call of two is not served from a cache; it asks the backend and makes
    resident again. *)
Lemma getTextureId_zero_handle_counterexample :
  textureHandle_ refTex2D = 0 /\
  calls (snd (getTextureId_repeat (H := refEnv noError (fun _ => 0))
                1 refTex2D ctx0))
    = [GetTextureHandle 7; MakeTextureHandleResident 0] /\
  calls (snd (getTextureId_repeat (H := refEnv noError (fun _ => 0))
                2 refTex2D ctx0))
    = [GetTextureHandle 7; MakeTextureHandleResident 0;
       GetTextureHandle 7; MakeTextureHandleResident 0] /\
  calls (snd (getTextureId_repeat (H := refEnv noError (fun _ => 0))
                2 refTex2D ctx0))
    <> calls (snd (getTextureId_repeat (H := refEnv noError (fun _ => 0))
                     1 refTex2D ctx0)).
Proof. repeat split. discriminate. Qed.

Lemma upload_path_selection_witness :
  isOk (validateRange (Env := E0) refTex2D full4x4) = true /\
  exists c,
    calls (snd (run_routine (H := E0) Upload2D refTex2D 0x0DE1 full4x4 (Some 1) ctx0))
      = calls ctx0 ++ [c; GetError] /\
    isTransfer c = true /\
    (isImageReplace c = true <->
       isValidForTexImage (Env := E0) refTex2D full4x4 = true /\
       supportsTexStorage (H := E0) refTex2D ctx0 = false) /\
    (isSubImageReplace c = true <->
       isValidForTexImage (Env := E0) refTex2D full4x4 = false \/
       supportsTexStorage (H := E0) refTex2D ctx0 = true).
Proof.
  split; [reflexivity |].
  apply (upload_path_selection (H := E0) Upload2D refTex2D 0x0DE1 full4x4
           (Some 1) ctx0).
  reflexivity.
Defined.

Lemma upload_multi_level_null_data_counterexample :
  1 < numMipLevels twoLevels4x4 /\
  upload (H := E0) refTex2D twoLevels4x4 nullptr 0 ctx0 = (Result_default, ctx0) /\
  code (fst (upload (H := E0) refTex2D twoLevels4x4 nullptr 0 ctx0))
    <> Unimplemented.
Proof. split; [reflexivity |]. split; [reflexivity | discriminate]. Qed.

Lemma upload_multi_level_unimplemented_witness :
  1 < numMipLevels twoLevels4x4 /\
  Some 1 <> nullptr /\
  getTarget refTex2D <> 0 /\
  code (fst (upload (H := E0) refTex2D twoLevels4x4 (Some 1) 0 ctx0))
    = Unimplemented.
Proof.
  assert (H1 : 1 < numMipLevels twoLevels4x4) by reflexivity.
  assert (H2 : Some 1 <> nullptr) by discriminate.
  assert (H3 : getTarget refTex2D <> 0) by discriminate.
  split; [exact H1 |]. split; [exact H2 |]. split; [exact H3 |].
  exact (proj1 (upload_multi_level_unimplemented (H := E0)
                  refTex2D twoLevels4x4 (Some 1) 0 ctx0 H1 H2 H3)).
Defined.

Lemma upload_null_data_counterexample :
  isOk (validateRange (Env := E0) refTex2D full4x4) = true /\
  numMipLevels full4x4 = 1 /\
  upload (H := E0) refTex2D full4x4 nullptr 0 ctx0 = (Result_default, ctx0) /\
  ~ (exists c,
       In c (calls (snd (upload (H := E0) refTex2D full4x4 nullptr 0 ctx0))) /\
       isTransfer c = true).
Proof.
  repeat split. intros (c & Hin & _). exact Hin.
Qed.

Lemma upload_null_data_witness :
  upload (H := E0) refTex2D full4x4 nullptr 0 ctx0 = (Result_default, ctx0) /\
  isOk (validateRange (Env := E0) refTex2D full4x4) = true /\
  (isOk (fst (upload (H := E0) refTex2D full4x4 (Some 1) 0 ctx0)) = true /\
   isOk (fst (upload (H := E0) refTex2D full4x4 nullptr 0
                (snd (upload (H := E0) refTex2D full4x4 (Some 1) 0 ctx0))))
     = true) /\
  exists cs,
    cs <> [] /\
    calls (snd (upload_target (H := E0) refTex2D 0x0DE1 full4x4 nullptr 0 ctx0))
      = calls ctx0
        ++ PixelStorei GL_UNPACK_ALIGNMENT
             (getAlignment (Env := E0) refTex2D 0 (mipLevel full4x4))
           :: polled cs /\
    Forall (allocates_only (H := E0) refTex2D ctx0 full4x4) cs /\
    (type_ refTex2D <> Cube -> length cs = 1%nat).
Proof.
  assert (Hdata : Some 1 <> nullptr) by discriminate.
  assert (Htg : getTarget refTex2D <> 0) by discriminate.
  assert (Hmips : numMipLevels full4x4 <= 1) by discriminate.
  assert (Hsup : dimension_supported refTex2D ctx0).
  { split; [left; reflexivity |]. split; intros _; reflexivity. }
  pose proof (upload_null_data (H := E0) refTex2D full4x4 0 ctx0)
    as (Hnull & _ & Hboth & Halloc).
  split; [exact Hnull |]. split; [reflexivity |]. split.
  - exact (Hboth (Some 1) Hdata Htg Hmips Hsup eq_refl (fun _ => eq_refl)).
  - exact (Halloc 0x0DE1 Hmips Hsup eq_refl).
Defined.

Lemma ref_toGLTarget_cube ty n :
  ref_toGLTarget ty n = GL_TEXTURE_CUBE_MAP -> ty = Cube.
Proof. destruct ty; intros Heq; (reflexivity || discriminate Heq). Defined.

Lemma uploadCube_not_cube_witness :
  getType refTex2D <> Cube /\
  code (fst (uploadCube (H := E0) refTex2D full4x4 PosX (Some 1) 0 ctx0))
    = InvalidOperation /\
  snd (uploadCube (H := E0) refTex2D full4x4 PosX (Some 1) 0 ctx0) = ctx0 /\
  bound (snd (uploadCube (H := E0) refTex2D full4x4 PosX (Some 1) 0 ctx0))
    = bound ctx0.
Proof.
  assert (Hty : getType refTex2D <> Cube) by discriminate.
  assert (Hdata : Some 1 <> nullptr) by discriminate.
  split; [exact Hty |].
  exact (uploadCube_not_cube (H := E0) refTex2D full4x4 PosX (Some 1) 0 ctx0 1
           eq_refl ref_toGLTarget_cube Hty Hdata eq_refl).
Defined.

Lemma getTextureId_resolves_once_witness :
  textureHandle_ refTex2D = 0 /\
  glGetTextureHandle (Env := E0) (calls ctx0) (getId refTex2D) <> 0 /\
  getTextureId_repeat (H := E0) 4 refTex2D ctx0
    = ([0x100000007; 0x100000007; 0x100000007; 0x100000007],
       set_textureHandle 0x100000007 refTex2D,
       issue (MakeTextureHandleResident 0x100000007)
         (issue (GetTextureHandle 7) ctx0)) /\
  calls (issue (MakeTextureHandleResident 0x100000007)
           (issue (GetTextureHandle 7) ctx0))
    = [GetTextureHandle 7; MakeTextureHandleResident 0x100000007].
Proof.
  assert (Hnz : glGetTextureHandle (Env := E0) (calls ctx0) (getId refTex2D) <> 0)
    by discriminate.
  split; [reflexivity |]. split; [exact Hnz |].
  pose proof (getTextureId_resolves_once (H := E0) refTex2D ctx0 3 eq_refl)
    as (_ & Hcalls & Hcached & _).
  split; [exact (proj2 (Hcached Hnz)) | exact Hcalls].
Defined.

Lemma destructor_order_witness :
  calls (TextureBuffer_destructor (set_textureHandle 0x100000007 refTex2D) ctx0)
    = [MakeTextureHandleNonResident 0x100000007; DeleteTextures [7]] /\
  calls (TextureBuffer_destructor refTex2D ctx0) = [DeleteTextures [7]] /\
  TextureBuffer_destructor refTexNew ctx0 = ctx0.
Proof.
  assert (Hid : getId refTex2D <> 0) by discriminate.
  assert (Hh : textureHandle_ (set_textureHandle 0x100000007 refTex2D) <> 0)
    by discriminate.
  split; [| split].
  - exact (proj1 (destructor_order
                    (set_textureHandle 0x100000007 refTex2D) ctx0) Hid Hh).
  - exact (proj1 (proj2 (destructor_order refTex2D ctx0)) Hid eq_refl).
  - exact (proj2 (proj2 (destructor_order refTexNew ctx0)) eq_refl).
Defined.


Lemma binding_restored_witness :
  unbound_after refTex2D ctx0
    (snd (upload (H := E0) refTex2D outside4x4 (Some 1) 0 ctx0)) /\
  unbound_after refTexCube ctx0
    (snd (uploadCube (H := E0) refTexCube outside4x4 NegY (Some 1) 0 ctx0)) /\
  unbound_after refTex2D ctx0 (snd (initialize (H := E0) refTex2D ctx0)).
Proof.
  pose proof (binding_restored (H := E0) refTex2D ctx0) as (Hu & _ & Hi).
  pose proof (binding_restored (H := E0) refTexCube ctx0) as (_ & Hc & _).
  split; [| split].
  - destruct (Hu outside4x4 (Some 1) 0) as [Heq | Hr]; [| exact Hr].
    apply (f_equal calls) in Heq. discriminate Heq.
  - destruct (Hc outside4x4 NegY (Some 1) 0) as [Heq | Hr]; [| exact Hr].
    apply (f_equal calls) in Heq. discriminate Heq.
  - destruct (Hi (fun _ _ => eq_refl)) as [Heq | Hr]; [| exact Hr].
    apply (f_equal calls) in Heq. discriminate Heq.
Defined.

Lemma uploadCube_discards_inner_result_witness :
  getType refTexCube = Cube /\
  isOk (fst (upload2D (H := E0) refTexCube GL_TEXTURE_CUBE_MAP_NEGATIVE_Y
               outside4x4 (Some 1)
               (bindTexture GL_TEXTURE_CUBE_MAP 9
                  (pixelStorei GL_UNPACK_ALIGNMENT 4%Z ctx0)))) = false /\
  isOk (fst (uploadCube (H := E0) refTexCube outside4x4 NegY (Some 1) 0 ctx0))
    = true.
Proof.
  assert (Hdata : Some 1 <> nullptr) by discriminate.
  split; [reflexivity |]. split; [reflexivity |].
  exact (proj2 (uploadCube_discards_inner_result (H := E0)
                  refTexCube outside4x4 NegY (Some 1) 0 ctx0 1
                  eq_refl eq_refl eq_refl Hdata eq_refl)).
Defined.

Lemma create_usage_gate_witness :
  create (H := E0) descAttachment2D false refTexNew ctx0
    = (mkResult Unsupported "invalid usage!",
       snd (fst (ref_Super_create descAttachment2D false refTexNew ctx0)), ctx0) /\
  create (H := E0) descSampled2D false refTexNew ctx0
    = createTexture (H := E0) descSampled2D
        (snd (fst (ref_Super_create descSampled2D false refTexNew ctx0))) ctx0.
Proof.
  split.
  - exact (proj1 (create_usage_gate (H := E0) descAttachment2D false refTexNew
                    ctx0 _ _ _ eq_refl eq_refl)
             eq_refl eq_refl eq_refl eq_refl).
  - assert (Hs : N.land (desc_usage descSampled2D) (Sampled (Env := E0)) <> 0)
      by discriminate.
    exact (proj2 (create_usage_gate (H := E0) descSampled2D false refTexNew
                    ctx0 _ _ _ eq_refl eq_refl)
             (or_introl Hs)).
Defined.

(** ** Further properties of [TextureBuffer] *)

Section UploadProperties.
Context `{Env}.

(** *** What an upload is made of *)

Lemma isTransfer_entry c : isTransfer c = true -> isUploadEntry c = true.
Proof. destruct c; cbn; congruence. Qed.

(** The call a per-dimension routine issues on an accepted range, with what
    it addresses and carries. *)
Lemma routine_call (r : UploadRoutine) t target range data ctx :
  isOk (validateRange t range) = true ->
  exists c,
    run_routine r t target range data ctx
      = (glGetError (calls ctx ++ [c]), issue GetError (issue c ctx)) /\
    isTransfer c = true /\
    transferData c = Some data /\
    isCompressedTransfer c
      = negb (is_nullptr data || negb (isCompressed (getFormat t))) /\
    transferTarget c
      = Some (if isCompressedTransfer c && isSubImageReplace c
              then getTarget t else target) /\
    isSubImageReplace c
      = negb (isValidForTexImage t range && negb (supportsTexStorage t ctx)).
Proof.
  intros Hv.
  destruct r; cbn [run_routine];
    unfold upload1D, upload1DArray, upload2D, upload2DArray, upload3D;
    rewrite Hv; cbn [negb];
    destruct (isValidForTexImage t range && negb (supportsTexStorage t ctx));
    destruct (is_nullptr data || negb (isCompressed (getFormat t)));
    (eexists; split; [reflexivity | repeat split]).
Qed.

Lemma routine_rejects (r : UploadRoutine) t target range data ctx :
  isOk (validateRange t range) = false ->
  run_routine r t target range data ctx = (validateRange t range, ctx).
Proof.
  intros Hv.
  destruct r; cbn [run_routine];
    unfold upload1D, upload1DArray, upload2D, upload2DArray, upload3D;
    rewrite Hv; reflexivity.
Qed.

Lemma routine_entries (r : UploadRoutine) t target range data ctx :
  exists l,
    calls (snd (run_routine r t target range data ctx)) = calls ctx ++ l /\
    Forall (fun c => isUploadEntry c = true) l.
Proof.
  destruct (isOk (validateRange t range)) eqn:Hv.
  - destruct (routine_call r t target range data ctx Hv) as (c & -> & Htr & _).
    exists [c; GetError]. cbn [snd]. rewrite !calls_issue, <- app_assoc.
    split; [reflexivity |].
    constructor; [apply isTransfer_entry, Htr |].
    constructor; [reflexivity | constructor].
  - rewrite (routine_rejects r _ _ _ _ _ Hv). exists [].
    split; [symmetry; apply app_nil_r | constructor].
Qed.

Lemma upload_faces_entries t targets range data ctx :
  exists l,
    calls (snd (upload_faces t targets range data ctx)) = calls ctx ++ l /\
    Forall (fun c => isUploadEntry c = true) l.
Proof.
  revert ctx. induction targets as [| tg rest IH]; intros ctx.
  - exists []. split; [symmetry; apply app_nil_r | constructor].
  - cbn [upload_faces].
    destruct (routine_entries Upload2D t tg range data ctx) as (l1 & H1 & Hall1).
    cbn [run_routine] in H1.
    destruct (upload2D t tg range data ctx) as [res ctx1]. cbn [snd] in H1.
    destruct (isOk res); cbn [negb snd].
    + destruct (IH ctx1) as (l2 & H2 & Hall2).
      exists (l1 ++ l2). split.
      * rewrite H2, H1. symmetry. apply app_assoc.
      * apply Forall_app. split; assumption.
    + exists l1. split; assumption.
Qed.

Lemma upload_target_entries t target range data bytesPerRow ctx :
  exists l,
    calls (snd (upload_target t target range data bytesPerRow ctx))
      = calls ctx ++ l /\
    Forall (fun c => isUploadEntry c = true) l.
Proof.
  unfold upload_target.
  destruct (1 <? numMipLevels range);
    [exists []; split; [symmetry; apply app_nil_r | constructor] |].
  set (p := PixelStorei GL_UNPACK_ALIGNMENT
               (getAlignment t bytesPerRow (mipLevel range))).
  change (pixelStorei _ _ ctx) with (issue p ctx).
  assert (Hstop : forall res : Result,
             exists l, calls (snd (res, issue p ctx)) = calls ctx ++ l /\
                       Forall (fun c => isUploadEntry c = true) l).
  { intros res. exists [p]. split; [reflexivity |].
    constructor; [reflexivity | constructor]. }
  assert (Hgo : forall out : Result * IContext,
             (exists l, calls (snd out) = calls (issue p ctx) ++ l /\
                        Forall (fun c => isUploadEntry c = true) l) ->
             exists l, calls (snd out) = calls ctx ++ l /\
                       Forall (fun c => isUploadEntry c = true) l).
  { intros out (l & Hc & Hall). exists (p :: l). split.
    - rewrite Hc, calls_issue, <- app_assoc. reflexivity.
    - constructor; [reflexivity | exact Hall]. }
  destruct (type_ t); try apply Hstop.
  - apply Hgo, (routine_entries Upload2D).
  - destruct (hasFeature _ _); cbn [negb]; [| apply Hstop].
    apply Hgo, (routine_entries Upload2DArray).
  - destruct (hasFeature _ _); cbn [negb]; [| apply Hstop].
    apply Hgo, (routine_entries Upload3D).
  - apply Hgo, upload_faces_entries.
Qed.

(** X1.  Whatever [upload], [uploadCube] and the mip-chain walk of
    [initializeWithUpload] issue, it is made of binds, pixel-store settings,
    transfers and error polls only: no upload sets a texture parameter (the
    channel swizzle is not applied again), generates or deletes a texture,
    resolves a handle or reserves storage. *)
Theorem uploads_issue_only_upload_entries t ctx :
  (forall range data bytesPerRow,
     exists l,
       calls (snd (upload t range data bytesPerRow ctx)) = calls ctx ++ l /\
       Forall (fun c => isUploadEntry c = true) l) /\
  (forall range face data bytesPerRow,
     exists l,
       calls (snd (uploadCube t range face data bytesPerRow ctx))
         = calls ctx ++ l /\
       Forall (fun c => isUploadEntry c = true) l) /\
  (exists l,
     calls (snd (initializeWithUpload t ctx)) = calls ctx ++ l /\
     Forall (fun c => isUploadEntry c = true) l).
Proof.
  assert (Hnil : exists l, calls ctx = calls ctx ++ l /\
                           Forall (fun c => isUploadEntry c = true) l)
    by (exists []; split; [symmetry; apply app_nil_r | constructor]).
  split; [| split].
  - intros range data bytesPerRow. unfold upload.
    destruct (is_nullptr data); [exact Hnil |].
    destruct (getTarget t =? 0); [exact Hnil |].
    destruct (upload_target_entries t (getTarget t) range data bytesPerRow
                (bindTexture (getTarget t) (getId t) ctx)) as (l & Hc & Hall).
    destruct (upload_target _ _ _ _ _ _) as [res ctx2]. cbn [snd] in *.
    exists (BindTexture (getTarget t) (getId t) :: l
            ++ [BindTexture (getTarget t) 0]).
    split.
    + cbn [bindTexture calls] in *. rewrite Hc, <- !app_assoc. reflexivity.
    + constructor; [reflexivity |]. apply Forall_app. split; [exact Hall |].
      constructor; [reflexivity | constructor].
  - intros range face data bytesPerRow. unfold uploadCube.
    destruct (is_nullptr data); [exact Hnil |].
    destruct (1 <? numMipLevels range); [exact Hnil |].
    destruct (getTarget t =? GL_TEXTURE_CUBE_MAP); cbn [negb]; [| exact Hnil].
    match goal with
    | |- context [upload2D t ?tg range data ?c] =>
        destruct (routine_entries Upload2D t tg range data c) as (l & Hc & Hall);
        cbn [run_routine] in Hc;
        destruct (upload2D t tg range data c) as [res ctx2]
    end.
    cbn [snd] in *.
    exists (PixelStorei GL_UNPACK_ALIGNMENT
              (getAlignment t bytesPerRow (mipLevel range))
            :: BindTexture (getTarget t) (getId t) :: l
            ++ [BindTexture (getTarget t) 0]).
    split.
    + cbn [bindTexture pixelStorei issue calls] in *.
      rewrite Hc, <- !app_assoc. reflexivity.
    + constructor; [reflexivity |]. constructor; [reflexivity |].
      apply Forall_app. split; [exact Hall |].
      constructor; [reflexivity | constructor].
  - unfold initializeWithUpload.
    generalize (N.to_nat (getNumMipLevels t)) as n, 0 as i.
    intros n. revert ctx Hnil. induction n as [| n IH]; intros ctx Hnil i.
    + exact Hnil.
    + cbn [initializeWithUpload_loop].
      destruct (upload_target_entries t (getTarget t) (getFullRange t i 1)
                  nullptr 0 ctx) as (l1 & H1 & Hall1).
      destruct (upload_target _ _ _ _ _ _) as [res ctx1]. cbn [snd] in H1.
      destruct (isOk res); cbn [negb snd].
      * destruct (IH ctx1) with (i := i + 1) as (l2 & H2 & Hall2).
        { exists []. split; [symmetry; apply app_nil_r | constructor]. }
        exists (l1 ++ l2). split.
        -- rewrite H2, H1. symmetry. apply app_assoc.
        -- apply Forall_app. split; assumption.
      * exists l1. split; assumption.
Qed.

Lemma routine_history (r : UploadRoutine) t target range data ctx1 ctx2 :
  deviceFeatures ctx1 = deviceFeatures ctx2 ->
  exists l,
    calls (snd (run_routine r t target range data ctx1)) = calls ctx1 ++ l /\
    calls (snd (run_routine r t target range data ctx2)) = calls ctx2 ++ l.
Proof.
  intros Hf. destruct (isOk (validateRange t range)) eqn:Hv.
  - destruct r; cbn [run_routine];
      unfold upload1D, upload1DArray, upload2D, upload2DArray, upload3D;
      rewrite Hv; cbn [negb];
      rewrite (supportsTexStorage_features t ctx2 ctx1 Hf);
      destruct (isValidForTexImage t range && negb (supportsTexStorage t ctx2));
      destruct (is_nullptr data || negb (isCompressed (getFormat t)));
      (eexists; split; cbn [snd getLastError];
       rewrite !calls_issue, <- app_assoc; reflexivity).
  - rewrite !(routine_rejects r _ _ _ _ _ Hv). exists [].
    split; symmetry; apply app_nil_r.
Qed.

(** *** Rejections on the way to a routine *)

(** X2.  An upload with data, on a resource that has a target, of a
    single-level range that [validateRange] rejects returns the result of
    [validateRange] itself, for a 2D or Cube resource and for a 2D-array or
    3D resource on a backend that has the corresponding feature: the resource
    is bound, the unpack alignment is set, the resource is unbound, and
    neither a transfer nor an error poll is issued (for Cube the first face
    already stops the iteration). *)
Theorem upload_rejected_range t range data bytesPerRow ctx :
  data <> nullptr ->
  getTarget t <> 0 ->
  numMipLevels range <= 1 ->
  isOk (validateRange t range) = false ->
  In (type_ t) [TwoD; TwoDArray; ThreeD; Cube] ->
  (type_ t = TwoDArray -> hasFeature (deviceFeatures ctx) Texture2DArray = true) ->
  (type_ t = ThreeD -> hasFeature (deviceFeatures ctx) Texture3D = true) ->
  upload t range data bytesPerRow ctx
    = (validateRange t range,
       bindTexture (getTarget t) 0
         (pixelStorei GL_UNPACK_ALIGNMENT
            (getAlignment t bytesPerRow (mipLevel range))
            (bindTexture (getTarget t) (getId t) ctx))).
Proof.
  intros Hdata Htg Hmips Hv Hty H2a H3d.
  apply N.eqb_neq in Htg.
  unfold upload. rewrite (is_nullptr_false _ Hdata), Htg.
  unfold upload_target.
  destruct (N.ltb_spec 1 (numMipLevels range)) as [Hlt | _]; [lia |].
  set (ctx1 := pixelStorei _ _ _).
  assert (Hr2 : forall tg,
             upload2D t tg range data ctx1 = (validateRange t range, ctx1))
    by (intros tg; apply (routine_rejects Upload2D); exact Hv).
  assert (Hr2a : upload2DArray t (getTarget t) range data ctx1
                 = (validateRange t range, ctx1))
    by (apply (routine_rejects Upload2DArray); exact Hv).
  assert (Hr3 : upload3D t (getTarget t) range data ctx1
                = (validateRange t range, ctx1))
    by (apply (routine_rejects Upload3D); exact Hv).
  cbn [In] in Hty. destruct Hty as [Hk | [Hk | [Hk | [Hk | []]]]];
    rewrite <- Hk in *.
  - rewrite Hr2. reflexivity.
  - change (deviceFeatures ctx1) with (deviceFeatures ctx).
    rewrite (H2a eq_refl). cbn [negb]. rewrite Hr2a. reflexivity.
  - change (deviceFeatures ctx1) with (deviceFeatures ctx).
    rewrite (H3d eq_refl). cbn [negb]. rewrite Hr3. reflexivity.
  - unfold kCubeFaceTargets. cbn [upload_faces].
    rewrite Hr2, Hv. reflexivity.
Qed.

(** X3.  An upload with data and a single-level range, on a resource that
    has a target: to a 2D-array resource on a backend without
    [Texture2DArray], or to a 3D resource without [Texture3D], it returns
    Unsupported; to a resource of type Invalid or ExternalImage it returns
    InvalidOperation.  In each case the range is not even validated and
    nothing is transferred: the log gains the bind, the unpack alignment and
    the unbind. *)
Theorem upload_unsupported_dimension t range data bytesPerRow ctx :
  data <> nullptr ->
  getTarget t <> 0 ->
  numMipLevels range <= 1 ->
  (type_ t = TwoDArray /\ hasFeature (deviceFeatures ctx) Texture2DArray = false) \/
  (type_ t = ThreeD /\ hasFeature (deviceFeatures ctx) Texture3D = false) \/
  type_ t = Invalid \/ type_ t = ExternalImage ->
  code (fst (upload t range data bytesPerRow ctx))
    = match type_ t with
      | TwoDArray | ThreeD => Unsupported
      | _ => InvalidOperation
      end /\
  snd (upload t range data bytesPerRow ctx)
    = bindTexture (getTarget t) 0
        (pixelStorei GL_UNPACK_ALIGNMENT
           (getAlignment t bytesPerRow (mipLevel range))
           (bindTexture (getTarget t) (getId t) ctx)).
Proof.
  intros Hdata Htg Hmips Hcase.
  apply N.eqb_neq in Htg.
  unfold upload. rewrite (is_nullptr_false _ Hdata), Htg.
  unfold upload_target.
  destruct (N.ltb_spec 1 (numMipLevels range)) as [Hlt | _]; [lia |].
  set (ctx1 := pixelStorei _ _ _).
  change (deviceFeatures ctx1) with (deviceFeatures ctx).
  destruct Hcase as [[-> ->] | [[-> ->] | [-> | ->]]]; split; reflexivity.
Qed.

(** X4.  Apart from Cube resources, the entry points an upload issues do not
    depend on what the context went through before: from two contexts with
    the same device features, the same upload appends the same calls. *)
Theorem upload_entries_independent_of_history
    t range data bytesPerRow ctx1 ctx2 :
  type_ t <> Cube ->
  deviceFeatures ctx1 = deviceFeatures ctx2 ->
  exists l,
    calls (snd (upload t range data bytesPerRow ctx1)) = calls ctx1 ++ l /\
    calls (snd (upload t range data bytesPerRow ctx2)) = calls ctx2 ++ l.
Proof.
  intros Hty Hf. unfold upload.
  destruct (is_nullptr data); [exists []; split; symmetry; apply app_nil_r |].
  destruct (getTarget t =? 0); [exists []; split; symmetry; apply app_nil_r |].
  unfold upload_target.
  destruct (1 <? numMipLevels range).
  { eexists. split; cbn [snd bindTexture calls];
      rewrite <- app_assoc; reflexivity. }
  set (b := BindTexture (getTarget t) (getId t)).
  set (p := PixelStorei GL_UNPACK_ALIGNMENT
               (getAlignment t bytesPerRow (mipLevel range))).
  set (u := BindTexture (getTarget t) 0).
  set (c1 := pixelStorei _ _ (bindTexture _ _ ctx1)).
  set (c2 := pixelStorei _ _ (bindTexture _ _ ctx2)).
  assert (Hc1 : calls c1 = calls ctx1 ++ [b; p])
    by (cbn; rewrite <- app_assoc; reflexivity).
  assert (Hc2 : calls c2 = calls ctx2 ++ [b; p])
    by (cbn; rewrite <- app_assoc; reflexivity).
  assert (Hf12 : deviceFeatures c1 = deviceFeatures c2) by exact Hf.
  assert (Hstop : forall res1 res2 : Result,
             exists l,
               calls (snd (let '(result, ctx) := (res1, c1) in
                           (result, bindTexture (getTarget t) 0 ctx)))
                 = calls ctx1 ++ l /\
               calls (snd (let '(result, ctx) := (res2, c2) in
                           (result, bindTexture (getTarget t) 0 ctx)))
                 = calls ctx2 ++ l).
  { intros res1 res2. exists [b; p; u]. cbn [snd bindTexture calls].
    rewrite Hc1, Hc2, <- !app_assoc. split; reflexivity. }
  assert (Hgo : forall r : UploadRoutine,
             exists l,
               calls (snd (let '(result, ctx) :=
                             run_routine r t (getTarget t) range data c1 in
                           (result, bindTexture (getTarget t) 0 ctx)))
                 = calls ctx1 ++ l /\
               calls (snd (let '(result, ctx) :=
                             run_routine r t (getTarget t) range data c2 in
                           (result, bindTexture (getTarget t) 0 ctx)))
                 = calls ctx2 ++ l).
  { intros r.
    destruct (routine_history r t (getTarget t) range data c1 c2 Hf12)
      as (l & H1 & H2).
    destruct (run_routine r t (getTarget t) range data c1) as [r1 o1].
    destruct (run_routine r t (getTarget t) range data c2) as [r2 o2].
    cbn [snd] in *. exists ([b; p] ++ l ++ [u]).
    cbn [bindTexture calls]. rewrite H1, H2, Hc1, Hc2, <- !app_assoc.
    split; reflexivity. }
  rewrite <- Hf12.
  destruct (type_ t); try apply Hstop; try congruence.
  - apply (Hgo Upload2D).
  - destruct (hasFeature _ _); cbn [negb]; [apply (Hgo Upload2DArray) | apply Hstop].
  - destruct (hasFeature _ _); cbn [negb]; [apply (Hgo Upload3D) | apply Hstop].
Qed.

(** *** Targets *)

(** X5.  On an accepted range every per-dimension routine addresses the
    target it was given, except on one path: the compressed sub-image call
    (data present, compressed format, partial range or immutable storage)
    addresses the resource's own target [getTarget()] and ignores the
    argument. *)
Theorem routine_transfer_target (r : UploadRoutine) t target range data ctx :
  isOk (validateRange t range) = true ->
  exists c,
    calls (snd (run_routine r t target range data ctx))
      = calls ctx ++ [c; GetError] /\
    transferTarget c
      = Some (if isCompressedTransfer c && isSubImageReplace c
              then getTarget t else target) /\
    isCompressedTransfer c && isSubImageReplace c
      = negb (is_nullptr data) && isCompressed (getFormat t)
        && negb (isValidForTexImage t range && negb (supportsTexStorage t ctx)).
Proof.
  intros Hv.
  destruct (routine_call r t target range data ctx Hv)
    as (c & -> & _ & _ & Hcomp & Htg & Hsub).
  exists c. cbn [snd]. rewrite !calls_issue, <- app_assoc.
  split; [reflexivity |]. split; [exact Htg |].
  rewrite Hcomp, Hsub.
  destruct (is_nullptr data), (isCompressed (getFormat t)); reflexivity.
Qed.

Lemma polled_app cs1 cs2 : polled (cs1 ++ cs2) = polled cs1 ++ polled cs2.
Proof. unfold polled. apply flat_map_app. Qed.

(** The face loop on an accepted range with plain transfers: the faces
    addressed are an initial segment of [targets], in order; every poll that
    is followed by another face was Ok; the result is Ok only after the last
    face, and otherwise it is the failed poll of the last face addressed. *)
Lemma upload_faces_run t targets range data ctx :
  isOk (validateRange t range) = true ->
  is_nullptr data || negb (isCompressed (getFormat t)) = true ->
  exists cs,
    calls (snd (upload_faces t targets range data ctx))
      = calls ctx ++ polled cs /\
    map transferTarget cs = map Some (take (length cs) targets) /\
    (forall cs1 c cs2,
       cs = cs1 ++ c :: cs2 ->
       cs2 <> [] \/ isOk (fst (upload_faces t targets range data ctx)) = true ->
       isOk (glGetError (calls ctx ++ polled cs1 ++ [c])) = true) /\
    (isOk (fst (upload_faces t targets range data ctx)) = true ->
     length cs = length targets) /\
    (isOk (fst (upload_faces t targets range data ctx)) = false ->
     exists cs1 c,
       cs = cs1 ++ [c] /\
       fst (upload_faces t targets range data ctx)
         = glGetError (calls ctx ++ polled cs1 ++ [c])).
Proof.
  intros Hv Hplain. revert ctx.
  induction targets as [| tg rest IH]; intros ctx.
  - exists []. cbn [upload_faces fst snd polled flat_map map take length].
    rewrite app_nil_r. repeat split.
    + intros cs1 c cs2 Hsplit. destruct cs1; discriminate Hsplit.
    + discriminate.
  - cbn [upload_faces].
    destruct (routine_call Upload2D t tg range data ctx Hv)
      as (c & Hrun & _ & _ & Hcomp & Htg & _).
    cbn [run_routine] in Hrun. rewrite Hrun.
    rewrite Hplain in Hcomp. cbn [negb] in Hcomp.
    rewrite Hcomp in Htg. cbn [andb] in Htg.
    destruct (isOk (glGetError (calls ctx ++ [c]))) eqn:Hok; cbn [negb].
    + destruct (IH (issue GetError (issue c ctx)))
        as (cs & Hc & Hts & Hpolls & Hall & Hlast).
      assert (Hbase : forall l,
                 calls (issue GetError (issue c ctx)) ++ l
                 = calls ctx ++ polled [c] ++ l).
      { intros l. cbn [polled flat_map app issue calls].
        rewrite <- !app_assoc. reflexivity. }
      exists (c :: cs). split; [| split; [| split; [| split]]].
      * rewrite Hc, Hbase. change (c :: cs) with ([c] ++ cs).
        rewrite polled_app. reflexivity.
      * cbn [map length take]. rewrite Htg, Hts. reflexivity.
      * intros cs1 c0 cs2 Hsplit Hcase. destruct cs1 as [| c1 cs1].
        -- injection Hsplit as <- _. exact Hok.
        -- injection Hsplit as <- Hsplit.
           pose proof (Hpolls cs1 c0 cs2 Hsplit Hcase) as Hp.
           rewrite Hbase in Hp.
           change (c :: cs1) with ([c] ++ cs1). rewrite polled_app.
           rewrite <- app_assoc. exact Hp.
      * intros Hres. cbn [length]. f_equal. exact (Hall Hres).
      * intros Hres. destruct (Hlast Hres) as (cs1 & c0 & -> & Hfst).
        exists (c :: cs1), c0. split; [reflexivity |].
        rewrite Hfst, Hbase.
        change (c :: cs1) with ([c] ++ cs1). rewrite polled_app.
        rewrite <- app_assoc. reflexivity.
    + exists [c]. cbn [fst snd]. split; [| split; [| split; [| split]]].
      * cbn [polled flat_map app issue calls].
        rewrite <- !app_assoc. reflexivity.
      * cbn. rewrite Htg. reflexivity.
      * intros cs1 c0 cs2 Hsplit [Hne | Hres]; [| congruence].
        destruct cs1 as [| c1 cs1].
        -- injection Hsplit as _ <-. congruence.
        -- injection Hsplit as _ Hsplit. destruct cs1; discriminate Hsplit.
      * congruence.
      * intros _. exists [], c. split; reflexivity.
Qed.

(** X6.  The generic upload on a Cube resource (a resource with a target, a
    single-level range that [validateRange] accepts, uncompressed format,
    data present) sends the same range to the face targets in the fixed order
    +X, -X, +Y, -Y, +Z, -Z, polling the error after each face.  It stops at
    the first face for which the driver reports a failure: every poll that is
    followed by another face was Ok, a result that is not Ok is the failed
    poll of the last face addressed, and when the upload returns Ok all six
    faces were addressed, in that order, each with an Ok poll. *)
Theorem upload_cube_faces_in_order t range data bytesPerRow ctx :
  type_ t = Cube ->
  data <> nullptr ->
  getTarget t <> 0 ->
  numMipLevels range <= 1 ->
  isOk (validateRange t range) = true ->
  isCompressed (getFormat t) = false ->
  let pre :=
    calls ctx
    ++ [BindTexture (getTarget t) (getId t);
        PixelStorei GL_UNPACK_ALIGNMENT
          (getAlignment t bytesPerRow (mipLevel range))] in
  exists cs,
    calls (snd (upload t range data bytesPerRow ctx))
      = pre ++ polled cs ++ [BindTexture (getTarget t) 0] /\
    map transferTarget cs = map Some (take (length cs) kCubeFaceTargets) /\
    (forall cs1 c cs2,
       cs = cs1 ++ c :: cs2 ->
       cs2 <> [] \/ isOk (fst (upload t range data bytesPerRow ctx)) = true ->
       isOk (glGetError (pre ++ polled cs1 ++ [c])) = true) /\
    (isOk (fst (upload t range data bytesPerRow ctx)) = true ->
     map transferTarget cs = map Some kCubeFaceTargets) /\
    (isOk (fst (upload t range data bytesPerRow ctx)) = false ->
     exists cs1 c,
       cs = cs1 ++ [c] /\
       fst (upload t range data bytesPerRow ctx)
         = glGetError (pre ++ polled cs1 ++ [c])).
Proof.
  intros Hty Hdata Htg Hmips Hv Hfmt pre.
  apply N.eqb_neq in Htg.
  unfold upload. rewrite (is_nullptr_false _ Hdata), Htg.
  unfold upload_target.
  destruct (N.ltb_spec 1 (numMipLevels range)) as [Hlt | _]; [lia |].
  rewrite Hty.
  set (ctx1 := pixelStorei _ _ _).
  assert (Hpre : calls ctx1 = pre).
  { subst ctx1 pre. unfold pixelStorei.
    cbn [issue bindTexture calls]. rewrite <- app_assoc. reflexivity. }
  assert (Hplain : is_nullptr data || negb (isCompressed (getFormat t)) = true)
    by (rewrite Hfmt; apply orb_true_r).
  destruct (upload_faces_run t kCubeFaceTargets range data ctx1 Hv Hplain)
    as (cs & Hc & Hts & Hpolls & Hall & Hlast).
  destruct (upload_faces t kCubeFaceTargets range data ctx1) as [res ctx2].
  cbn [fst snd] in *. rewrite Hpre in *.
  exists cs. split; [| split; [| split; [| split]]].
  - cbn [bindTexture calls]. rewrite Hc, <- app_assoc. reflexivity.
  - exact Hts.
  - exact Hpolls.
  - intros Hres. rewrite Hts, (Hall Hres). reflexivity.
  - exact Hlast.
Qed.

(** X7.  On a Cube resource, [uploadCube] with data (accepted range, plain
    transfer) issues exactly one transfer, carrying the caller's pointer and
    addressed to the GL target of the requested face, which is
    [GL_TEXTURE_CUBE_MAP_POSITIVE_X] plus the face's index; two different
    faces never share a target. *)
Theorem uploadCube_addresses_face t range face data bytesPerRow ctx :
  getTarget t = GL_TEXTURE_CUBE_MAP ->
  data <> nullptr ->
  numMipLevels range <= 1 ->
  isOk (validateRange t range) = true ->
  isCompressed (getFormat t) = false ->
  (exists c,
     calls (snd (uploadCube t range face data bytesPerRow ctx))
       = calls ctx
         ++ [PixelStorei GL_UNPACK_ALIGNMENT
               (getAlignment t bytesPerRow (mipLevel range));
             BindTexture GL_TEXTURE_CUBE_MAP (getId t);
             c; GetError;
             BindTexture GL_TEXTURE_CUBE_MAP 0] /\
     transferData c = Some data /\
     transferTarget c
       = Some (GL_TEXTURE_CUBE_MAP_POSITIVE_X + N.of_nat (face_index face))) /\
  (forall face',
     nth (face_index face') kCubeFaceTargets 0
       = nth (face_index face) kCubeFaceTargets 0 ->
     face' = face).
Proof.
  intros Htg Hdata Hmips Hv Hfmt. split.
  - unfold uploadCube. rewrite (is_nullptr_false _ Hdata).
    destruct (N.ltb_spec 1 (numMipLevels range)) as [Hlt | _]; [lia |].
    rewrite Htg, N.eqb_refl. cbn [negb].
    match goal with
    | |- context [upload2D t ?tg range data ?c0] =>
        destruct (routine_call Upload2D t tg range data c0 Hv)
          as (c & Hrun & _ & Hd & Hcomp & Htgt & _);
        cbn [run_routine] in Hrun; rewrite Hrun
    end.
    rewrite Hfmt, orb_true_r in Hcomp. cbn [negb] in Hcomp.
    rewrite Hcomp in Htgt. cbn [andb] in Htgt.
    exists c. split; [| split; [exact Hd |]].
    + cbn [snd bindTexture pixelStorei issue calls].
      rewrite <- !app_assoc. reflexivity.
    + rewrite Htgt. destruct face; reflexivity.
  - intros face'. destruct face, face'; cbn; intros Heq;
      (reflexivity || discriminate Heq).
Qed.

End UploadProperties.

Section LifecycleProperties.
Context `{Env}.

(** *** Creation *)

Lemma createTexture_identity desc t ctx :
  let out := createTexture desc t ctx in
  let t' := snd (fst out) in
  textureHandle_ t' = textureHandle_ t /\
  ((isOk (fst (fst out)) = false /\ getId t' = getId t) \/
   getId t' = glGenTexture (calls ctx)).
Proof.
  cbv zeta. unfold createTexture.
  destruct (toGLTarget _ _ =? 0); [split; [| left; split]; reflexivity |].
  destruct (toFormatDescGL _ _ _) as [ok fd].
  destruct ok; cbn [negb]; [| split; [| left; split]; reflexivity].
  destruct (negb (isCompressed _) && _); [split; [| left; split]; reflexivity |].
  destruct (negb (_ =? 0) && negb _); [split; [| left; split]; reflexivity |].
  destruct (desc_type desc);
    try destruct (initialize _ _) as [res ctxI];
    (split; [| right]; reflexivity).
Qed.

(** X8.  [createTexture] has two outcomes.  Either it fails validation
    (target, format, component type, storage support): then the result is not
    Ok, the context is untouched, and the object keeps its id, target, usage
    and handle.  Or it generates one texture name: then the object carries
    that name, the non-zero target of its type and the descriptor's usage as
    given (the Sampled bit added for format resolution is not stored), and the
    result is the one of [initialize] run right after the generation, or Ok
    at once for an external image, which is never bound or populated. *)
Theorem createTexture_allocates_or_leaves_untouched desc t ctx :
  let out := createTexture desc t ctx in
  let t' := snd (fst out) in
  (isOk (fst (fst out)) = false /\
   snd out = ctx /\
   getId t' = getId t /\ getTarget t' = getTarget t /\
   getUsage t' = getUsage t /\ textureHandle_ t' = textureHandle_ t)
  \/
  (getId t' = glGenTexture (calls ctx) /\
   getTarget t' = toGLTarget (desc_type desc) (desc_numSamples desc) /\
   getTarget t' <> 0 /\
   getUsage t' = desc_usage desc /\
   glInternalFormat_ t' = internalFormat (formatDescGL_ t') /\
   textureHandle_ t' = textureHandle_ t /\
   (fst (fst out), snd out)
     = match desc_type desc with
       | ExternalImage => (Result_default, issue (GenTextures 1) ctx)
       | _ => initialize t' (issue (GenTextures 1) ctx)
       end).
Proof.
  cbv zeta. unfold createTexture.
  destruct (N.eqb_spec (toGLTarget (desc_type desc) (desc_numSamples desc)) 0)
    as [Hz | Hnz]; [left; repeat split |].
  destruct (toFormatDescGL _ _ _) as [ok fd].
  destruct ok; cbn [negb]; [| left; repeat split].
  destruct (negb (isCompressed _) && _); [left; repeat split |].
  destruct (negb (_ =? 0) && negb _); [left; repeat split |].
  right.
  destruct (desc_type desc) eqn:Hty;
    try (destruct (initialize _ _) as [res ctxI] eqn:Hinit;
         cbn [fst snd]; rewrite <- ?Hinit;
         repeat split; assumption).
  cbn [fst snd]. repeat split; assumption.
Qed.

(** X9.  With the Storage usage bit on a backend without the [TexStorage]
    feature, [createTexture] never generates a texture: the result is not Ok
    and the context is untouched, whatever the format; when target and format
    are valid the result is Unsupported, "Texture Storage not supported". *)
Theorem createTexture_storage_unsupported desc t ctx :
  N.land (desc_usage desc) Storage <> 0 ->
  hasInternalFeature (deviceFeatures ctx) TexStorage = false ->
  isOk (fst (fst (createTexture desc t ctx))) = false /\
  snd (createTexture desc t ctx) = ctx /\
  (forall fd,
     toGLTarget (desc_type desc) (desc_numSamples desc) <> 0 ->
     toFormatDescGL (desc_format desc) (desc_usage desc) (formatDescGL_ t)
       = (true, fd) ->
     isCompressed (getFormat t) = true \/ type fd <> GL_NONE ->
     fst (fst (createTexture desc t ctx))
       = mkResult Unsupported "Texture Storage not supported").
Proof.
  intros Hst Hfeat. apply N.eqb_neq in Hst.
  unfold createTexture. rewrite Hst, Hfeat. cbn [negb andb].
  split; [| split].
  - destruct (toGLTarget _ _ =? 0); [reflexivity |].
    destruct (toFormatDescGL _ _ _) as [ok fd]. destruct ok; [| reflexivity].
    cbn [negb]. destruct (negb (isCompressed _) && _); reflexivity.
  - destruct (toGLTarget _ _ =? 0); [reflexivity |].
    destruct (toFormatDescGL _ _ _) as [ok fd]. destruct ok; [| reflexivity].
    cbn [negb]. destruct (negb (isCompressed _) && _); reflexivity.
  - intros fd Htg Hfd Hty. apply N.eqb_neq in Htg. rewrite Htg, Hfd.
    cbn [negb].
    assert (Hchk : negb (isCompressed (getFormat (set_formatDescGL fd t)))
                   && (type (formatDescGL_ (set_formatDescGL fd t)) =? GL_NONE)
                   = false).
    { change (getFormat (set_formatDescGL fd t)) with (getFormat t).
      change (formatDescGL_ (set_formatDescGL fd t)) with fd.
      destruct Hty as [-> | Hne]; [reflexivity |].
      apply N.eqb_neq in Hne. rewrite Hne. apply andb_false_r. }
    rewrite Hchk. reflexivity.
Qed.

(** X10.  When [create] returns Ok, the inherited [create] had returned Ok
    and the descriptor passed the usage gate: a 2D texture with a single mip
    level that was created successfully has the Sampled or the Storage usage
    bit. *)
Theorem create_ok_passed_gate desc hasStorageAlready t ctx :
  isOk (fst (fst (create desc hasStorageAlready t ctx))) = true ->
  isOk (fst (fst (Super_create desc hasStorageAlready t ctx))) = true /\
  (N.land (desc_usage desc) Sampled <> 0 \/
   N.land (desc_usage desc) Storage <> 0 \/
   desc_type desc <> TwoD \/
   1 < desc_numMipLevels desc).
Proof.
  unfold create.
  destruct (Super_create desc hasStorageAlready t ctx) as [[r t1] ctx1].
  cbn [fst]. destruct (isOk r) eqn:Hok; [| cbn [fst]; congruence].
  intros Hres. split; [reflexivity |].
  destruct (N.eqb_spec (N.land (desc_usage desc) (N.lor Sampled Storage)) 0)
    as [Hz | Hnz].
  - cbn [negb orb] in Hres.
    destruct (decide (desc_type desc = TwoD)) as [Hty | Hty];
      [| right; right; left; exact Hty].
    rewrite bool_decide_eq_true_2 in Hres by exact Hty. cbn [negb orb] in Hres.
    destruct (N.ltb_spec 1 (desc_numMipLevels desc)) as [Hlt | Hge];
      [right; right; right; exact Hlt | discriminate Hres].
  - destruct (N.eq_dec (N.land (desc_usage desc) Sampled) 0) as [Hs | Hs];
      [| left; exact Hs].
    right; left. intros Hst. apply Hnz, land_lor_eq_0. split; assumption.
Qed.

(** X11.  A compressed resource on a backend that can populate it neither
    through image calls nor through reserved storage is still initialized
    "successfully": [initialize] binds, sets the mip parameters, unbinds and
    returns Ok without defining any storage. *)
Theorem initialize_skips_population t ctx :
  getTarget t <> 0 ->
  isCompressed (getFormat t) = true ->
  hasTextureFeature (deviceFeatures (compressed_prelude t ctx))
    TextureCompressionTexImage = false ->
  hasTextureFeature (deviceFeatures (compressed_prelude t ctx))
    TextureCompressionTexStorage = false ->
  initialize t ctx
    = (Result_default, bindTexture (getTarget t) 0 (compressed_prelude t ctx)).
Proof.
  intros Htg Hfmt Himg Hsto. apply N.eqb_neq in Htg.
  unfold initialize. rewrite Htg, Hfmt. cbn [negb].
  fold (compressed_prelude t ctx).
  unfold canInitialize. rewrite Hfmt, Himg, Hsto. cbn [negb orb].
  rewrite andb_false_r. reflexivity.
Qed.

(** *** Allocation strategy *)

(** X12.  A resource whose usage lacks the Storage bit never uses immutable
    storage, whatever the backend supports: every accepted full-extent upload
    through any per-dimension routine is an image-replace call. *)
Theorem no_storage_usage_is_mutable t ctx :
  N.land (getUsage t) Storage = 0 ->
  supportsTexStorage t ctx = false /\
  (forall (r : UploadRoutine) target range data,
     isOk (validateRange t range) = true ->
     isValidForTexImage t range = true ->
     exists c,
       calls (snd (run_routine r t target range data ctx))
         = calls ctx ++ [c; GetError] /\
       isImageReplace c = true).
Proof.
  intros Hu.
  assert (Hs : supportsTexStorage t ctx = false)
    by (unfold supportsTexStorage; rewrite Hu; reflexivity).
  split; [exact Hs |].
  intros r target range data Hv Hfull.
  destruct (routine_shape r t target range data ctx)
    as [[Hno _] | [_ (c & Hrun & Himg & _)]]; [congruence |].
  exists c. rewrite Hrun. cbn [snd]. rewrite !calls_issue, <- app_assoc.
  split; [reflexivity |]. rewrite Himg, Hfull, Hs. reflexivity.
Qed.

(** *** From creation and resolution to destruction *)

(** X13.  After any number of [getTextureId] calls on an allocated
    resource, destruction releases exactly the handle that was made resident
    and then deletes the texture: over the whole life the backend sees one
    resolution, one residency, one release and one deletion, in that order. *)
Theorem handle_released_on_destruction t ctx n :
  getId t <> 0 ->
  textureHandle_ t = 0 ->
  glGetTextureHandle (calls ctx) (getId t) <> 0 ->
  let h := glGetTextureHandle (calls ctx) (getId t) in
  let out := getTextureId_repeat (S n) t ctx in
  calls (TextureBuffer_destructor (snd (fst out)) (snd out))
    = calls ctx ++ [GetTextureHandle (getId t); MakeTextureHandleResident h;
                    MakeTextureHandleNonResident h; DeleteTextures [getId t]].
Proof.
  intros Hid Hfresh Hnz h out. subst out. fold h in Hnz.
  set (ctx1 := issue (MakeTextureHandleResident h)
                 (issue (GetTextureHandle (getId t)) ctx)).
  assert (Hfirst : getTextureId t ctx = (h, set_textureHandle h t, ctx1))
    by (unfold getTextureId; rewrite Hfresh; reflexivity).
  assert (Hrun : getTextureId_repeat (S n) t ctx
                 = (repeat h (S n), set_textureHandle h t, ctx1)).
  { cbn [getTextureId_repeat]. rewrite Hfirst.
    rewrite (getTextureId_repeat_cached n (set_textureHandle h t)) by exact Hnz.
    reflexivity. }
  rewrite Hrun. subst ctx1.
  cbn [fst snd]. unfold TextureBuffer_destructor.
  change (getId (set_textureHandle h t)) with (getId t).
  change (textureHandle_ (set_textureHandle h t)) with h.
  apply N.eqb_neq in Hid, Hnz. rewrite Hid, Hnz. cbn [negb].
  rewrite !calls_issue, <- !app_assoc. reflexivity.
Qed.

(** X14.  Destruction after [createTexture] on an object whose handle was
    never resolved: the destructor releases no handle and deletes at most one
    texture name, the object's; that name is either the one the object had
    before (validation failed) or the one [createTexture] generated, and it is
    the generated one whenever [createTexture] returned Ok. *)
Theorem destruction_after_createTexture desc t ctx :
  textureHandle_ t = 0 ->
  let out := createTexture desc t ctx in
  let t' := snd (fst out) in
  calls (TextureBuffer_destructor t' (snd out))
    = calls (snd out)
      ++ (if getId t' =? 0 then [] else [DeleteTextures [getId t']]) /\
  (getId t' = getId t \/ getId t' = glGenTexture (calls ctx)) /\
  (isOk (fst (fst out)) = true -> getId t' = glGenTexture (calls ctx)).
Proof.
  intros Hh out t'.
  destruct (createTexture_identity desc t ctx) as [Hh' Hid].
  fold out in Hh', Hid. fold t' in Hh', Hid.
  split; [| split].
  - unfold TextureBuffer_destructor. rewrite Hh', Hh.
    destruct (getId t' =? 0); cbn [negb N.eqb].
    + symmetry. apply app_nil_r.
    + reflexivity.
  - destruct Hid as [[_ Hid] | Hid]; [left | right]; exact Hid.
  - destruct Hid as [[Hfail _] | Hid]; [congruence | intros _; exact Hid].
Qed.

End LifecycleProperties.

Section InitializationProperties.
Context `{Env}.

(** X18.  Initialization by upload of a single-level 2D resource with mutable
    storage, when the full range of level 0 is a single-level range that
    [validateRange] accepts and [isValidForTexImage] recognises: storage is
    defined by exactly one call, a plain image-replace on the resource's
    target with a null data pointer, after the unpack alignment is set; the
    result is Ok exactly when the driver reports no error for it. *)
Theorem initializeWithUpload_single_level_2D t ctx :
  type_ t = TwoD ->
  getNumMipLevels t = 1 ->
  numMipLevels (getFullRange t 0 1) <= 1 ->
  isOk (validateRange t (getFullRange t 0 1)) = true ->
  isValidForTexImage t (getFullRange t 0 1) = true ->
  supportsTexStorage t ctx = false ->
  exists c,
    calls (snd (initializeWithUpload t ctx))
      = calls ctx
        ++ [PixelStorei GL_UNPACK_ALIGNMENT
              (getAlignment t 0 (mipLevel (getFullRange t 0 1)));
            c; GetError] /\
    isImageReplace c = true /\
    isCompressedTransfer c = false /\
    transferData c = Some nullptr /\
    transferTarget c = Some (getTarget t) /\
    isOk (fst (initializeWithUpload t ctx))
      = isOk (glGetError
                (calls ctx
                 ++ [PixelStorei GL_UNPACK_ALIGNMENT
                       (getAlignment t 0 (mipLevel (getFullRange t 0 1)));
                     c])).
Proof.
  intros Hty Hn Hmips Hv Hfull Hmut.
  unfold initializeWithUpload. rewrite Hn.
  change (N.to_nat 1) with 1%nat. cbn [initializeWithUpload_loop].
  unfold upload_target.
  destruct (N.ltb_spec 1 (numMipLevels (getFullRange t 0 1))) as [Hlt | _];
    [lia |].
  rewrite Hty.
  set (range := getFullRange t 0 1) in *.
  set (ctx1 := pixelStorei _ _ ctx).
  destruct (routine_call Upload2D t (getTarget t) range nullptr ctx1 Hv)
    as (c & Hrun & Himg & Hd & Hcomp & Htg & Hsub).
  cbn [run_routine] in Hrun. rewrite Hrun.
  assert (Hmut1 : supportsTexStorage t ctx1 = false)
    by (rewrite <- Hmut; apply supportsTexStorage_features; reflexivity).
  rewrite Hfull, Hmut1 in Hsub. cbn in Hsub.
  unfold isTransfer in Himg. rewrite Hsub, orb_false_r in Himg.
  cbn [is_nullptr orb negb] in Hcomp.
  rewrite Hcomp in Htg. cbn [andb] in Htg.
  subst ctx1. unfold pixelStorei. cbn [issue calls].
  rewrite <- app_assoc. cbn [app].
  exists c. repeat split; try assumption.
  - destruct (isOk (glGetError _)); cbn [negb snd issue calls];
      rewrite <- !app_assoc; reflexivity.
  - destruct (isOk (glGetError _)) eqn:Hok; cbn [negb fst]; [reflexivity |].
    exact Hok.
Qed.

End InitializationProperties.

Lemma initializeWithUpload_single_level_2D_witness :
  supportsTexStorage (H := E0) refTex2D ctx0 = false /\
  exists c,
    calls (snd (initializeWithUpload (H := E0) refTex2D ctx0))
      = calls ctx0
        ++ [PixelStorei GL_UNPACK_ALIGNMENT
              (getAlignment (Env := E0) refTex2D 0
                 (mipLevel (getFullRange (Env := E0) refTex2D 0 1)));
            c; GetError] /\
    isImageReplace c = true /\
    isCompressedTransfer c = false /\
    transferData c = Some nullptr /\
    transferTarget c = Some (getTarget refTex2D) /\
    isOk (fst (initializeWithUpload (H := E0) refTex2D ctx0))
      = isOk (glGetError (Env := E0)
                (calls ctx0
                 ++ [PixelStorei GL_UNPACK_ALIGNMENT
                       (getAlignment (Env := E0) refTex2D 0
                          (mipLevel (getFullRange (Env := E0) refTex2D 0 1)));
                     c])).
Proof.
  assert (Hmips : numMipLevels (getFullRange (Env := E0) refTex2D 0 1) <= 1)
    by discriminate.
  split; [reflexivity |].
  exact (initializeWithUpload_single_level_2D (H := E0) refTex2D ctx0
           eq_refl eq_refl Hmips eq_refl eq_refl eq_refl).
Defined.

(** ** Properties of [ImageLoaderAndroid::loadImageData] *)

Section ImageLoaderProperties.
Context `{ImageLoader}.

Lemma empty_name (name : string) :
  String.eqb name EmptyString = true <-> name = EmptyString.
Proof. apply String.eqb_eq. Qed.

(** A name without a NUL character is opened under its own spelling. *)
Lemma c_str_no_nul (s : string) :
  (forall n, String.get n s <> Some Ascii.zero) -> c_str s = s.
Proof.
  induction s as [| c rest IH]; intros Hnul; [reflexivity |].
  cbn [c_str]. destruct (Ascii.eqb_spec c Ascii.zero) as [-> | _].
  - exfalso. apply (Hnul 0%nat). reflexivity.
  - f_equal. apply IH. intros n. exact (Hnul (S n)).
Qed.

(** X15.  [loadImageData] closes what it opens.  When it returns, the asset
    log is empty (empty name, or no asset manager), or a single failed open of
    [imageName.c_str()], or an open of [imageName.c_str()] followed by calls
    on that asset and ending with the one and only close; no second asset is
    opened. *)
Theorem loadImageData_closes_what_it_opens assetManager_ imageName d log :
  loadImageData assetManager_ imageName = Some (d, log) ->
  (log = [] /\ (imageName = EmptyString \/ assetManager_ = None)) \/
  (log = [AAssetManager_open (c_str imageName)] /\
   exists manager,
     assetManager_ = Some manager /\ manager (c_str imageName) = None) \/
  (exists manager asset mid,
     assetManager_ = Some manager /\
     manager (c_str imageName) = Some asset /\
     log = AAssetManager_open (c_str imageName) :: mid ++ [AAsset_close] /\
     ~ In AAsset_close mid /\
     forall name, ~ In (AAssetManager_open name) mid).
Proof.
  unfold loadImageData.
  destruct (String.eqb imageName EmptyString) eqn:Hname.
  { intros [= _ <-]. left. split; [reflexivity |].
    left. apply empty_name, Hname. }
  destruct assetManager_ as [manager |].
  2:{ intros [= _ <-]. left. split; [reflexivity | right; reflexivity]. }
  destruct (manager (c_str imageName)) as [asset |] eqn:Hopen.
  2:{ intros [= _ <-]. right; left. split; [reflexivity |].
      exists manager. split; [reflexivity | exact Hopen]. }
  assert (Hmid : forall mid,
             ~ In AAsset_close mid ->
             (forall name, ~ In (AAssetManager_open name) mid) ->
             log = AAssetManager_open (c_str imageName) :: mid ++ [AAsset_close] ->
             exists manager0 asset0 mid0,
               Some manager = Some manager0 /\
               manager0 (c_str imageName) = Some asset0 /\
               log = AAssetManager_open (c_str imageName)
                     :: mid0 ++ [AAsset_close] /\
               ~ In AAsset_close mid0 /\
               forall name, ~ In (AAssetManager_open name) mid0).
  { intros mid H1 H2 H3. exists manager, asset, mid. repeat split; auto. }
  destruct (INT_MAX <? asset_length asset)%Z.
  { intros [= _ <-]. right; right. apply (Hmid [AAsset_getLength64]).
    - cbn. intuition discriminate.
    - intros name. cbn. intuition discriminate.
    - reflexivity. }
  destruct (asset_length asset <? 0)%Z; [discriminate |].
  destruct (asset_read asset (asset_length asset)) as [bytes readSize].
  intros [= _ <-]. right; right.
  apply (Hmid [AAsset_getLength64; AAsset_read (asset_length asset)]).
  - cbn. intuition discriminate.
  - intros name. cbn. intuition discriminate.
  - reflexivity.
Qed.

(** X16.  The failure paths of [loadImageData] return the default image and
    never read: an empty name (nothing is opened, with or without an asset
    manager), a non-empty name whose C string the manager cannot open, and an
    asset longer than [INT_MAX] bytes (closed unread).  The name that decides
    is [imageName.c_str()]: a non-empty name that starts with a NUL asks the
    manager for the empty name. *)
Theorem loadImageData_failure_paths assetManager_ imageName :
  imageName = EmptyString \/
  (exists manager,
     assetManager_ = Some manager /\
     (manager (c_str imageName) = None \/
      exists asset,
        manager (c_str imageName) = Some asset /\
        (INT_MAX < asset_length asset)%Z)) ->
  exists log,
    loadImageData assetManager_ imageName = Some (ImageData_default, log) /\
    (forall count, ~ In (AAsset_read count) log) /\
    (imageName = EmptyString -> log = []) /\
    (imageName <> EmptyString ->
     exists rest, log = AAssetManager_open (c_str imageName) :: rest).
Proof.
  intros Hcase. unfold loadImageData.
  destruct (String.eqb imageName EmptyString) eqn:Hname.
  { apply empty_name in Hname. exists []. repeat split.
    - intros count [].
    - intros Hne. contradiction. }
  assert (Hne : imageName <> EmptyString).
  { intros Heq. apply empty_name in Heq. congruence. }
  destruct Hcase as [Hempty | (manager & -> & [Hopen | (asset & Hopen & Hlen)])];
    [contradiction | |]; rewrite Hopen.
  - eexists. split; [reflexivity |]. split; [| split; [contradiction |]].
    + intros count. cbn. intuition discriminate.
    + intros _. eexists. reflexivity.
  - apply Z.ltb_lt in Hlen. rewrite Hlen.
    eexists. split; [reflexivity |]. split; [| split; [contradiction |]].
    + intros count. cbn. intuition discriminate.
    + intros _. eexists. reflexivity.
Qed.

Lemma filled_buffer_length (n : Z) bytes :
  length (filled_buffer n bytes) = Z.to_nat n.
Proof.
  unfold filled_buffer.
  rewrite length_take, length_app, length_replicate. lia.
Qed.

(** X17.  When the manager opens [imageName.c_str()] as an asset of a length
    between 0 and [INT_MAX], [loadImageData] always decodes: the decoder
    receives exactly [length] bytes, beginning with the bytes the read stored
    and zero after them, and the value the read returned plays no part, so a
    short read is decoded zero-padded rather than reported.  What follows the
    first NUL of the name plays no part either. *)
Theorem loadImageData_decodes_whole_buffer
    manager imageName asset bytes readSize :
  imageName <> EmptyString ->
  manager (c_str imageName) = Some asset ->
  (0 <= asset_length asset <= INT_MAX)%Z ->
  asset_read asset (asset_length asset) = (bytes, readSize) ->
  (length bytes <= Z.to_nat (asset_length asset))%nat ->
  exists buffer,
    loadImageData (Some manager) imageName
      = Some (loadImageDataFromMemory buffer (asset_length asset),
              [AAssetManager_open (c_str imageName); AAsset_getLength64;
               AAsset_read (asset_length asset); AAsset_close]) /\
    length buffer = Z.to_nat (asset_length asset) /\
    take (length bytes) buffer = bytes /\
    (forall i,
       (length bytes <= i < Z.to_nat (asset_length asset))%nat ->
       buffer !! i = Some Byte.x00).
Proof.
  intros Hname Hopen [Hlo Hhi] Hread Hfit.
  exists (filled_buffer (asset_length asset) bytes).
  split; [| split; [| split]].
  - unfold loadImageData.
    destruct (String.eqb imageName EmptyString) eqn:He;
      [apply empty_name in He; contradiction |].
    rewrite Hopen.
    destruct (Z.ltb_spec INT_MAX (asset_length asset)); [lia |].
    destruct (Z.ltb_spec (asset_length asset) 0); [lia |].
    rewrite Hread. reflexivity.
  - apply filled_buffer_length.
  - unfold filled_buffer. rewrite take_take.
    replace (length bytes `min` Z.to_nat (asset_length asset))%nat
      with (length bytes) by lia.
    apply take_app_length.
  - intros i [Hi1 Hi2]. unfold filled_buffer.
    rewrite lookup_take_lt by exact Hi2.
    rewrite lookup_app_r by exact Hi1.
    apply lookup_replicate_2. lia.
Qed.

End ImageLoaderProperties.

(** ** The further properties on concrete inputs *)

Lemma upload_rejected_range_witness :
  isOk (validateRange (Env := E0) refTex2D outside4x4) = false /\
  upload (H := E0) refTex2D outside4x4 (Some 1) 0 ctx0
    = (validateRange (Env := E0) refTex2D outside4x4,
       bindTexture 0x0DE1 0
         (pixelStorei GL_UNPACK_ALIGNMENT 4%Z (bindTexture 0x0DE1 7 ctx0))).
Proof.
  assert (Hdata : Some 1 <> nullptr) by discriminate.
  assert (Htg : getTarget refTex2D <> 0) by discriminate.
  assert (Hmips : numMipLevels outside4x4 <= 1) by discriminate.
  assert (Hin : In (type_ refTex2D) [TwoD; TwoDArray; ThreeD; Cube])
    by (left; reflexivity).
  split; [reflexivity |].
  exact (upload_rejected_range (H := E0) refTex2D outside4x4 (Some 1) 0 ctx0
           Hdata Htg Hmips eq_refl Hin
           (fun _ => eq_refl) (fun _ => eq_refl)).
Defined.

Lemma upload_unsupported_dimension_witness :
  hasFeature (deviceFeatures ctxNoCompression) Texture2DArray = false /\
  code (fst (upload (H := E0) (tex4x4 TwoDArray 3 0x8C1A 1 1) full4x4 (Some 1) 0
               ctxNoCompression))
    = Unsupported /\
  calls (snd (upload (H := E0) (tex4x4 TwoDArray 3 0x8C1A 1 1) full4x4 (Some 1) 0
                ctxNoCompression))
    = [BindTexture 0x8C1A 3; PixelStorei GL_UNPACK_ALIGNMENT 4%Z;
       BindTexture 0x8C1A 0].
Proof.
  assert (Hdata : Some 1 <> nullptr) by discriminate.
  assert (Htg : getTarget (tex4x4 TwoDArray 3 0x8C1A 1 1) <> 0) by discriminate.
  assert (Hmips : numMipLevels full4x4 <= 1) by discriminate.
  pose proof (upload_unsupported_dimension (H := E0)
                (tex4x4 TwoDArray 3 0x8C1A 1 1) full4x4 (Some 1) 0
                ctxNoCompression Hdata Htg Hmips
                (or_introl (conj eq_refl eq_refl))) as [Hcode Hctx].
  split; [reflexivity |]. split; [exact Hcode |].
  rewrite Hctx. reflexivity.
Defined.

Lemma upload_entries_independent_of_history_witness :
  type_ refTex2D <> Cube /\
  exists l,
    calls (snd (upload (H := E0) refTex2D inner2x2 (Some 1) 0 ctx0))
      = calls ctx0 ++ l /\
    calls (snd (upload (H := E0) refTex2D inner2x2 (Some 1) 0
                  (bindTexture 0x0DE1 9 (issue GetError ctx0))))
      = calls (bindTexture 0x0DE1 9 (issue GetError ctx0)) ++ l.
Proof.
  assert (Hty : type_ refTex2D <> Cube) by discriminate.
  split; [exact Hty |].
  exact (upload_entries_independent_of_history (H := E0) refTex2D inner2x2
           (Some 1) 0 ctx0 (bindTexture 0x0DE1 9 (issue GetError ctx0))
           Hty eq_refl).
Defined.

Lemma routine_transfer_target_witness :
  isOk (validateRange (Env := E0) refTexCompressed inner2x2) = true /\
  exists c,
    calls (snd (run_routine (H := E0) Upload2D refTexCompressed
                  GL_TEXTURE_CUBE_MAP_POSITIVE_X inner2x2 (Some 1) ctx0))
      = calls ctx0 ++ [c; GetError] /\
    transferTarget c
      = Some (if isCompressedTransfer c && isSubImageReplace c
              then getTarget refTexCompressed
              else GL_TEXTURE_CUBE_MAP_POSITIVE_X) /\
    isCompressedTransfer c && isSubImageReplace c
      = negb (is_nullptr (Some 1))
        && isCompressed (Env := E0) (getFormat refTexCompressed)
        && negb (isValidForTexImage (Env := E0) refTexCompressed inner2x2
                 && negb (supportsTexStorage (H := E0) refTexCompressed ctx0)).
Proof.
  split; [reflexivity |].
  exact (routine_transfer_target (H := E0) Upload2D refTexCompressed
           GL_TEXTURE_CUBE_MAP_POSITIVE_X inner2x2 (Some 1) ctx0 eq_refl).
Defined.

Lemma upload_cube_faces_in_order_witness :
  isOk (fst (upload (H := E0) refTexCube full4x4 (Some 1) 0 ctx0)) = true /\
  exists cs,
    calls (snd (upload (H := E0) refTexCube full4x4 (Some 1) 0 ctx0))
      = (calls ctx0
         ++ [BindTexture (getTarget refTexCube) (getId refTexCube);
             PixelStorei GL_UNPACK_ALIGNMENT
               (getAlignment (Env := E0) refTexCube 0 (mipLevel full4x4))])
        ++ polled cs ++ [BindTexture (getTarget refTexCube) 0] /\
    map transferTarget cs = map Some kCubeFaceTargets.
Proof.
  assert (Hdata : Some 1 <> nullptr) by discriminate.
  assert (Htg : getTarget refTexCube <> 0) by discriminate.
  assert (Hmips : numMipLevels full4x4 <= 1) by discriminate.
  split; [reflexivity |].
  destruct (upload_cube_faces_in_order (H := E0) refTexCube full4x4 (Some 1) 0
              ctx0 eq_refl Hdata Htg Hmips eq_refl eq_refl)
    as (cs & Hcalls & _ & _ & Hall & _).
  exists cs. split; [exact Hcalls | exact (Hall eq_refl)].
Defined.

(** On a driver that fails at level 1, a cube upload to level 1 stops after
    the first face. *)
Example upload_cube_stops_at_first_failure :
  upload (H := refEnv failsAtLevel1 residentHandle)
    (tex4x4 Cube 9 GL_TEXTURE_CUBE_MAP 1 2)
    (mkRange 0 0 0 2 2 1 0 1 1 1) (Some 1) 0 ctx0
  = (mkResult RuntimeError "GL_OUT_OF_MEMORY",
     {| calls :=
          [BindTexture GL_TEXTURE_CUBE_MAP 9;
           PixelStorei GL_UNPACK_ALIGNMENT 4%Z;
           TexImage2D GL_TEXTURE_CUBE_MAP_POSITIVE_X 1%Z 0x8058 2%Z 2%Z 0%Z
             0x1908 0x1401 (Some 1);
           GetError;
           BindTexture GL_TEXTURE_CUBE_MAP 0];
        bound := <[GL_TEXTURE_CUBE_MAP := 0]> (<[GL_TEXTURE_CUBE_MAP := 9]> ∅);
        deviceFeatures := refFeatures 16 |}).
Proof. reflexivity. Qed.

Lemma uploadCube_addresses_face_witness :
  getTarget refTexCube = GL_TEXTURE_CUBE_MAP /\
  exists c,
    calls (snd (uploadCube (H := E0) refTexCube full4x4 NegY (Some 1) 0 ctx0))
      = calls ctx0
        ++ [PixelStorei GL_UNPACK_ALIGNMENT
              (getAlignment (Env := E0) refTexCube 0 (mipLevel full4x4));
            BindTexture GL_TEXTURE_CUBE_MAP (getId refTexCube);
            c; GetError;
            BindTexture GL_TEXTURE_CUBE_MAP 0] /\
    transferData c = Some (Some 1) /\
    transferTarget c
      = Some (GL_TEXTURE_CUBE_MAP_POSITIVE_X + N.of_nat (face_index NegY)).
Proof.
  assert (Hdata : Some 1 <> nullptr) by discriminate.
  assert (Hmips : numMipLevels full4x4 <= 1) by discriminate.
  split; [reflexivity |].
  exact (proj1 (uploadCube_addresses_face (H := E0) refTexCube full4x4 NegY
                  (Some 1) 0 ctx0 eq_refl Hdata Hmips eq_refl eq_refl)).
Defined.

Lemma createTexture_storage_unsupported_witness :
  hasInternalFeature (deviceFeatures ctxNoCompression) TexStorage = false /\
  fst (fst (createTexture (H := E0) descStorage2D
              (tex4x4 TwoD 0 0 0 1) ctxNoCompression))
    = mkResult Unsupported "Texture Storage not supported" /\
  snd (createTexture (H := E0) descStorage2D
         (tex4x4 TwoD 0 0 0 1) ctxNoCompression)
    = ctxNoCompression.
Proof.
  assert (Hst : N.land (desc_usage descStorage2D) (Storage (Env := E0)) <> 0)
    by discriminate.
  assert (Htg : toGLTarget (Env := E0) (desc_type descStorage2D)
                  (desc_numSamples descStorage2D) <> 0) by discriminate.
  assert (Hty : isCompressed (Env := E0) (getFormat (tex4x4 TwoD 0 0 0 1)) = true \/
                type (mkFormatDescGL 0x8058 0x1908 0x1401) <> GL_NONE)
    by (right; discriminate).
  pose proof (createTexture_storage_unsupported (H := E0) descStorage2D
                (tex4x4 TwoD 0 0 0 1) ctxNoCompression Hst eq_refl)
    as (_ & Hctx & Hmsg).
  split; [reflexivity |]. split; [| exact Hctx].
  exact (Hmsg _ Htg eq_refl Hty).
Defined.

Lemma create_ok_passed_gate_witness :
  isOk (fst (fst (create (H := E0) descSampled2D false refTexNew ctx0))) = true /\
  (N.land (desc_usage descSampled2D) (Sampled (Env := E0)) <> 0 \/
   N.land (desc_usage descSampled2D) (Storage (Env := E0)) <> 0 \/
   desc_type descSampled2D <> TwoD \/
   1 < desc_numMipLevels descSampled2D).
Proof.
  split; [reflexivity |].
  exact (proj2 (create_ok_passed_gate (H := E0) descSampled2D false refTexNew
                  ctx0 eq_refl)).
Defined.

Lemma initialize_skips_population_witness :
  isCompressed (Env := E0) (getFormat refTexCompressed) = true /\
  initialize (H := E0) refTexCompressed ctxNoCompression
    = (Result_default,
       bindTexture (getTarget refTexCompressed) 0
         (compressed_prelude (H := E0) refTexCompressed ctxNoCompression)).
Proof.
  assert (Htg : getTarget refTexCompressed <> 0) by discriminate.
  split; [reflexivity |].
  exact (initialize_skips_population (H := E0) refTexCompressed
           ctxNoCompression Htg eq_refl eq_refl eq_refl).
Defined.

Lemma no_storage_usage_is_mutable_witness :
  N.land (getUsage refTex2D) (Storage (Env := E0)) = 0 /\
  supportsTexStorage (H := E0) refTex2D ctx0 = false /\
  exists c,
    calls (snd (run_routine (H := E0) Upload2D refTex2D 0x0DE1 full4x4
                  (Some 1) ctx0))
      = calls ctx0 ++ [c; GetError] /\
    isImageReplace c = true.
Proof.
  pose proof (no_storage_usage_is_mutable (H := E0) refTex2D ctx0 eq_refl)
    as [Hs Hup].
  split; [reflexivity |]. split; [exact Hs |].
  exact (Hup Upload2D 0x0DE1 full4x4 (Some 1) eq_refl eq_refl).
Defined.

Lemma handle_released_on_destruction_witness :
  getId refTex2D <> 0 /\
  calls (TextureBuffer_destructor
           (snd (fst (getTextureId_repeat (H := E0) 3 refTex2D ctx0)))
           (snd (getTextureId_repeat (H := E0) 3 refTex2D ctx0)))
    = [GetTextureHandle 7; MakeTextureHandleResident 0x100000007;
       MakeTextureHandleNonResident 0x100000007; DeleteTextures [7]].
Proof.
  assert (Hid : getId refTex2D <> 0) by discriminate.
  assert (Hnz : glGetTextureHandle (Env := E0) (calls ctx0) (getId refTex2D) <> 0)
    by discriminate.
  split; [exact Hid |].
  exact (handle_released_on_destruction (H := E0) refTex2D ctx0 2
           Hid eq_refl Hnz).
Defined.

Lemma destruction_after_createTexture_witness :
  textureHandle_ (tex4x4 TwoD 0 0 0 1) = 0 /\
  isOk (fst (fst (createTexture (H := E0) descSampled2D
                    (tex4x4 TwoD 0 0 0 1) ctx0))) = true /\
  getId (snd (fst (createTexture (H := E0) descSampled2D
                     (tex4x4 TwoD 0 0 0 1) ctx0)))
    = glGenTexture (Env := E0) (calls ctx0).
Proof.
  split; [reflexivity |]. split; [reflexivity |].
  exact (proj2 (proj2 (destruction_after_createTexture (H := E0) descSampled2D
                         (tex4x4 TwoD 0 0 0 1) ctx0 eq_refl)) eq_refl).
Defined.

(** A name with an embedded NUL: the manager is asked for what precedes it. *)
Example c_str_embedded_nul :
  c_str nameWithNul
  = "a.png"%string.
Proof. reflexivity. Qed.

Lemma loadImageData_closes_what_it_opens_witness :
  exists manager asset mid,
    Some oneFile = Some manager /\
    manager (c_str "a.png") = Some asset /\
    [AAssetManager_open "a.png"; AAsset_getLength64; AAsset_read 4; AAsset_close]
      = AAssetManager_open (c_str "a.png") :: mid ++ [AAsset_close] /\
    ~ In AAsset_close mid /\
    forall name, ~ In (AAssetManager_open name) mid.
Proof.
  destruct (loadImageData_closes_what_it_opens (H := keepBytes)
              (Some oneFile) "a.png" _ _ eq_refl)
    as [[Hlog _] | [[Hlog _] | Hok]];
    [discriminate Hlog | discriminate Hlog | exact Hok].
Defined.

Lemma loadImageData_failure_paths_witness :
  exists log,
    loadImageData (H := keepBytes) (Some oneFile) "b.png"
      = Some (ImageData_default, log) /\
    (forall count, ~ In (AAsset_read count) log) /\
    ("b.png"%string = EmptyString -> log = []) /\
    ("b.png"%string <> EmptyString ->
     exists rest, log = AAssetManager_open (c_str "b.png") :: rest).
Proof.
  apply (loadImageData_failure_paths (H := keepBytes) (Some oneFile) "b.png").
  right. exists oneFile. split; [reflexivity | left; reflexivity].
Defined.

Lemma loadImageData_decodes_whole_buffer_witness :
  asset_read shortAsset (asset_length shortAsset)
    = ([Byte.x01; Byte.x02], 2%Z) /\
  exists buffer,
    loadImageData (H := keepBytes) (Some oneFile) "a.png"
      = Some (loadImageDataFromMemory (ImageLoader := keepBytes) buffer
                (asset_length shortAsset),
              [AAssetManager_open (c_str "a.png"); AAsset_getLength64;
               AAsset_read (asset_length shortAsset); AAsset_close]) /\
    length buffer = Z.to_nat (asset_length shortAsset) /\
    take (length [Byte.x01; Byte.x02]) buffer = [Byte.x01; Byte.x02] /\
    (forall i,
       (length [Byte.x01; Byte.x02] <= i < Z.to_nat (asset_length shortAsset))%nat ->
       buffer !! i = Some Byte.x00).
Proof.
  assert (Hname : "a.png"%string <> EmptyString) by discriminate.
  assert (Hlen : (0 <= asset_length shortAsset <= INT_MAX)%Z)
    by (split; discriminate).
  assert (Hfit : (length [Byte.x01; Byte.x02]
                  <= Z.to_nat (asset_length shortAsset))%nat)
    by (cbn; lia).
  split; [reflexivity |].
  exact (loadImageData_decodes_whole_buffer (H := keepBytes) oneFile "a.png"
           shortAsset [Byte.x01; Byte.x02] 2%Z Hname eq_refl Hlen eq_refl Hfit).
Defined.

(** The short read of [shortAsset] reaches the decoder as four bytes, also
    when the name carries text after a NUL. *)
Example loadImageData_short_read :
  loadImageData (H := keepBytes) (Some oneFile) "a.png"
  = Some (([Byte.x01; Byte.x02; Byte.x00; Byte.x00], 4%Z),
          [AAssetManager_open "a.png"; AAsset_getLength64; AAsset_read 4;
           AAsset_close]).
Proof. reflexivity. Qed.

Example loadImageData_embedded_nul :
  loadImageData (H := keepBytes) (Some oneFile)
    nameWithNul
  = Some (([Byte.x01; Byte.x02; Byte.x00; Byte.x00], 4%Z),
          [AAssetManager_open "a.png"; AAsset_getLength64; AAsset_read 4;
           AAsset_close]).
Proof. reflexivity. Qed.
